(** * suseejs/check: extension classifier and module-format analyzer

    A shallow embedding of [src/index.cts] (the lenient entry point, which
    returns flags and counters) and [src/index.ts] (the strict entry point,
    which terminates the process on a policy violation), followed by the
    properties of the two that the specification states.

    - numbers are [Z]; a [x++] is [x + 1];
    - [console.*] calls and [process.exit] are effects of a small process
      monad [Proc]: a computation appends events to a trace and either
      returns, exits with a code, or throws;
    - the TypeScript compiler API is external to the repository: the parser
      and the type-checking program are the fields of the [TypeScript]
      class, the syntax tree is the inductive type [ts.Node] with the
      fields the traversal reads;
    - [path.extname] is Node's (POSIX) algorithm. *)

From Stdlib Require Import ZArith Lia Ascii String.
From stdpp Require Import base strings list gmap.

Set Warnings "-register-all".

Local Open Scope Z_scope.

(** ** Data model *)

(** [interface DepsFile { file: string; content: string }] *)
Record DepsFile := { file : string; content : string }.

Definition jsesm_exts : list string := [".js"; ".mjs"].
Definition jscjs_exts : list string := [".cjs"].
Definition tsesm_exts : list string := [".ts"; ".mts"].
Definition tscjs_exts : list string := [".cts"].
Definition jsx_exts : list string := [".jsx"; ".tsx"].
Definition all_exts : list string :=
  jscjs_exts ++ jsesm_exts ++ tscjs_exts ++ tsesm_exts ++ jsx_exts.

(** [new Set(xs).has(i)]: membership by string equality. *)
Definition has (xs : list string) (i : string) : bool :=
  existsb (String.eqb i) xs.

(** [xs.every(p)] *)
Definition every {A} (xs : list A) (p : A -> bool) : bool := forallb p xs.

(** [xs.some(p)] *)
Definition some {A} (xs : list A) (p : A -> bool) : bool := existsb p xs.

(** ** [node:path]

    [path.extname] belongs to Node, not to the repository; this is the
    algorithm of its POSIX variant, on which [/] is the path separator.
    The classifier's general properties hold for any [extname]; the
    examples use it on plain file names such as [a.ts]. *)

Module path.

(** The local variables of [extname]; [-1] is the "not seen yet" mark. *)
Record scan := {
  startDot : Z;
  startPart : Z;
  end_ : Z;
  matchedSlash : bool;
  preDotState : Z
}.

Definition scan0 : scan :=
  {| startDot := -1; startPart := 0; end_ := -1;
     matchedSlash := true; preDotState := 0 |}.

(** The loop [for (let i = path.length - 1; i >= 0; --i)]: [n] is [i + 1]. *)
Fixpoint extname_loop (p : string) (n : nat) (st : scan) : scan :=
  match n with
  | O => st
  | S i =>
    match String.get i p with
    | None => st
    | Some char =>
      if Ascii.eqb char "/"%char then
        if negb (matchedSlash st) then
          (* startPart = i + 1; break *)
          {| startDot := startDot st; startPart := Z.of_nat i + 1;
             end_ := end_ st; matchedSlash := matchedSlash st;
             preDotState := preDotState st |}
        else extname_loop p i st
      else
        let st1 :=
          if end_ st =? -1 then
            {| startDot := startDot st; startPart := startPart st;
               end_ := Z.of_nat i + 1; matchedSlash := false;
               preDotState := preDotState st |}
          else st in
        let st2 :=
          if Ascii.eqb char "."%char then
            if startDot st1 =? -1 then
              {| startDot := Z.of_nat i; startPart := startPart st1;
                 end_ := end_ st1; matchedSlash := matchedSlash st1;
                 preDotState := preDotState st1 |}
            else if negb (preDotState st1 =? 1) then
              {| startDot := startDot st1; startPart := startPart st1;
                 end_ := end_ st1; matchedSlash := matchedSlash st1;
                 preDotState := 1 |}
            else st1
          else if negb (startDot st1 =? -1) then
            {| startDot := startDot st1; startPart := startPart st1;
               end_ := end_ st1; matchedSlash := matchedSlash st1;
               preDotState := -1 |}
          else st1 in
        extname_loop p i st2
    end
  end.

(** [path.extname(p)]: from the last dot of the last path component to
    its end; empty when there is no dot, or the component starts with
    its only dot, or the component is [..]. *)
Definition extname (p : string) : string :=
  let st := extname_loop p (String.length p) scan0 in
  if (startDot st =? -1) || (end_ st =? -1) || (preDotState st =? 0)
     || ((preDotState st =? 1) && (startDot st =? end_ st - 1)
         && (startDot st =? startPart st + 1))
  then EmptyString
  else String.substring (Z.to_nat (startDot st))
                        (Z.to_nat (end_ st - startDot st)) p.

End path.

(** ** Exceptions *)

(** A thrown JavaScript value: what the code observes of it is whether it
    is truthy ([if (err)]) and its string form ([`${error}`]). *)
Record Thrown := { truthy : bool; toString : string }.

(** The outcome of code that may throw (the body of a [try]). *)
Inductive result (A : Type) : Type :=
| Ok (a : A)
| Throw (e : Thrown).
Arguments Ok {A} a.
Arguments Throw {A} e.

(** [TypeError: Cannot read properties of undefined (reading 'kind')] *)
Definition TypeError_kind_of_undefined : Thrown :=
  {| truthy := true;
     toString :=
       "TypeError: Cannot read properties of undefined (reading 'kind')" |}.

(** ** The part of the TypeScript syntax tree the analyzer reads *)

Module ts.

(** [ts.SyntaxKind]: the kinds the traversal tests for, the kinds that
    occur in the trees of the examples, and the rest. *)
Inductive SyntaxKind : Type :=
| SourceFile
| EndOfFileToken
| ImportDeclaration
| ImportEqualsDeclaration
| ExportDeclaration
| ExportSpecifier
| ExportAssignment
| VariableStatement
| FunctionDeclaration
| InterfaceDeclaration
| TypeAliasDeclaration
| EnumDeclaration
| ClassDeclaration
| CallExpression
| PropertyAccessExpression
| Identifier
| ExportKeyword
| ImportClause
| VariableDeclarationList
| VariableDeclaration
| ExpressionStatement
| BinaryExpression
| EqualsToken
| StringLiteral
| NumericLiteral
| Unlisted (name : string).

(** [ts.Node].  [modifiers] is [None] where the property is undefined;
    [expression] and [arguments] are the properties of a call expression
    ([None] and [[]] elsewhere); [text] is an identifier's name;
    [getText] is the node's own source span, [node.getText(sourceFile)];
    [children] are the nodes [ts.forEachChild] visits, in its order. *)
Inductive Node : Type := mkNode {
  kind : SyntaxKind;
  modifiers : option (list Node);
  expression : option Node;
  arguments : list Node;
  text : string;
  getText : string;
  children : list Node
}.

Definition is_kind (k : SyntaxKind) (node : Node) : bool :=
  match k, kind node with
  | SourceFile, SourceFile
  | EndOfFileToken, EndOfFileToken
  | ImportDeclaration, ImportDeclaration
  | ImportEqualsDeclaration, ImportEqualsDeclaration
  | ExportDeclaration, ExportDeclaration
  | ExportSpecifier, ExportSpecifier
  | ExportAssignment, ExportAssignment
  | VariableStatement, VariableStatement
  | FunctionDeclaration, FunctionDeclaration
  | InterfaceDeclaration, InterfaceDeclaration
  | TypeAliasDeclaration, TypeAliasDeclaration
  | EnumDeclaration, EnumDeclaration
  | ClassDeclaration, ClassDeclaration
  | CallExpression, CallExpression
  | PropertyAccessExpression, PropertyAccessExpression
  | Identifier, Identifier
  | ExportKeyword, ExportKeyword
  | ImportClause, ImportClause
  | VariableDeclarationList, VariableDeclarationList
  | VariableDeclaration, VariableDeclaration
  | ExpressionStatement, ExpressionStatement
  | BinaryExpression, BinaryExpression
  | EqualsToken, EqualsToken
  | StringLiteral, StringLiteral
  | NumericLiteral, NumericLiteral => true
  | Unlisted a, Unlisted b => String.eqb a b
  | _, _ => false
  end.

Definition isImportDeclaration := is_kind ImportDeclaration.
Definition isImportEqualsDeclaration := is_kind ImportEqualsDeclaration.
Definition isExportDeclaration := is_kind ExportDeclaration.
Definition isExportSpecifier := is_kind ExportSpecifier.
Definition isExportAssignment := is_kind ExportAssignment.
Definition isVariableStatement := is_kind VariableStatement.
Definition isFunctionDeclaration := is_kind FunctionDeclaration.
Definition isInterfaceDeclaration := is_kind InterfaceDeclaration.
Definition isTypeAliasDeclaration := is_kind TypeAliasDeclaration.
Definition isEnumDeclaration := is_kind EnumDeclaration.
Definition isClassDeclaration := is_kind ClassDeclaration.
Definition isCallExpression := is_kind CallExpression.
Definition isPropertyAccessExpression := is_kind PropertyAccessExpression.
Definition isIdentifier := is_kind Identifier.

(** [ts.forEachChild(node, cbNode)] for a callback that returns
    [undefined] (so that no child is skipped) and threads a state; a
    throw of the callback ends the iteration. *)
Definition forEachChild {S : Type}
    (node : Node) (cbNode : Node -> S -> result S) : S -> result S :=
  (fix each (cs : list Node) (st : S) : result S :=
     match cs with
     | [] => Ok st
     | c :: cs' =>
       match cbNode c st with
       | Ok st' => each cs' st'
       | Throw e => Throw e
       end
     end) (children node).

End ts.

(** ** The traversal of one file *)

(** The two markers of a file, [let hasESMImports] and [let hasCommonJS],
    which the closure [walk] assigns. *)
Record Flags := { hasESMImports : bool; hasCommonJS : bool }.

Definition noFlags : Flags :=
  {| hasESMImports := false; hasCommonJS := false |}.

(** [hasESMImports = true] *)
Definition setESMImports (st : Flags) : Flags :=
  {| hasESMImports := true; hasCommonJS := hasCommonJS st |}.

(** [hasCommonJS = true] *)
Definition setCommonJS (st : Flags) : Flags :=
  {| hasESMImports := hasESMImports st; hasCommonJS := true |}.

(** [function walk(node: ts.Node)], the same text in both files
    ([index.cts] 141-192, [index.ts] 149-200). *)
Fixpoint walk (node : ts.Node) (st : Flags) : result Flags :=
  (* Check for ESM import/export syntax *)
  let st1 :=
    if ts.isImportDeclaration node
       || ts.isImportEqualsDeclaration node
       || ts.isExportDeclaration node
       || ts.isExportSpecifier node
       || ts.isExportAssignment node
    then setESMImports st else st in
  (* Check for export modifier on declarations *)
  let st2 :=
    if (ts.isVariableStatement node
        || ts.isFunctionDeclaration node
        || ts.isInterfaceDeclaration node
        || ts.isTypeAliasDeclaration node
        || ts.isEnumDeclaration node
        || ts.isClassDeclaration node)
       && match ts.modifiers node with
          | Some mods => some mods (ts.is_kind ts.ExportKeyword)
          | None => false
          end
    then setESMImports st1 else st1 in
  (* Check for CommonJS require/exports *)
  let r3 :=
    if ts.isCallExpression node then
      match ts.expression node with
      | None => Throw TypeError_kind_of_undefined
      | Some callee =>
        if ts.isIdentifier callee
           && String.eqb (ts.text callee) "require"
           && (0 <? Z.of_nat (length (ts.arguments node)))
        then Ok (setCommonJS st2) else Ok st2
      end
    else Ok st2 in
  match r3 with
  | Throw e => Throw e
  | Ok st3 =>
    (* Check for module.exports or exports.xxx *)
    let st4 :=
      if ts.isPropertyAccessExpression node then
        if String.prefix "module.exports" (ts.getText node)
           || String.prefix "exports." (ts.getText node)
        then setCommonJS st3 else st3
      else st3 in
    (* Continue walking the AST *)
    ts.forEachChild node walk st4
  end.

(** ** The process: console output, exit and exceptions *)

Inductive event : Type :=
| console_warn (msg : string)
| console_error (msg : string)
| console_time (label : string)
| console_timeEnd (label : string).

(** How a computation ends: it returns, the process exits
    ([process.exit(code)]), or an exception leaves it. *)
Inductive outcome (A : Type) : Type :=
| Returned (a : A)
| Exited (code : Z)
| Threw (e : Thrown).
Arguments Returned {A} a.
Arguments Exited {A} code.
Arguments Threw {A} e.

(** A computation takes the trace of the events so far and gives its
    outcome and the trace extended with its own events. *)
Definition Proc (A : Type) : Type := list event -> outcome A * list event.

#[global] Instance Proc_ret : MRet Proc :=
  fun A (a : A) tr => (Returned a, tr).

#[global] Instance Proc_bind : MBind Proc :=
  fun A B (k : A -> Proc B) (m : Proc A) tr =>
    match m tr with
    | (Returned a, tr') => k a tr'
    | (Exited code, tr') => (Exited code, tr')
    | (Threw e, tr') => (Threw e, tr')
    end.

Definition emit (e : event) : Proc unit := fun tr => (Returned (), tr ++ [e]).

Definition ret {A} (a : A) : Proc A := mret a.

Definition process_exit {A} (code : Z) : Proc A := fun tr => (Exited code, tr).

Definition throw {A} (e : Thrown) : Proc A := fun tr => (Threw e, tr).

(** [try { m } catch (err) { handler err }]: an exit is not caught. *)
Definition try_catch {A} (m : Proc A) (handler : Thrown -> Proc A) : Proc A :=
  fun tr =>
    match m tr with
    | (Threw e, tr') => handler e tr'
    | r => r
    end.

(** A call of external code that may throw. *)
Definition call {A} (r : result A) : Proc A :=
  match r with
  | Ok a => ret a
  | Throw e => throw e
  end.

(** [for (const x of xs) { body }] over the variables [s] the body assigns. *)
Fixpoint for_of {A S} (xs : list A) (body : A -> S -> Proc S) (s : S) : Proc S :=
  match xs with
  | [] => ret s
  | x :: xs' => s' ← body x s; for_of xs' body s'
  end.

(** ** Values and objects the entry points return *)

Inductive JSValue : Type :=
| JSBool (b : bool)
| JSNumber (n : Z).

(** An object literal is the finite map of its own properties. *)
Abbreviation JSObject := (gmap string JSValue).

(** [{ ...a, ...b }]: the properties of [a], then those of [b], which win
    where both have one. *)
Definition spread (a b : JSObject) : JSObject := b ∪ a.

(** ** The TypeScript compiler API *)

(** [ts.CompilerOptions]: [noCheck] is the one option this code reads. *)
Record CompilerOptions := { noCheck : option bool }.

Record Diagnostic := { messageText : string }.

Class TypeScript := {
  (** [ts.createSourceFile(file, content, ts.ScriptTarget.Latest, true)] *)
  createSourceFile : string -> string -> result ts.Node;
  Program : Type;
  (** [ts.createProgram(filePaths, compilerOptions)] *)
  createProgram : list string -> CompilerOptions -> result Program;
  getSourceFile : Program -> string -> option ts.Node;
  getSyntacticDiagnostics : Program -> ts.Node -> list Diagnostic;
  getSemanticDiagnostics : Program -> ts.Node -> list Diagnostic;
  getDeclarationDiagnostics : Program -> ts.Node -> list Diagnostic;
  formatDiagnosticsWithColorAndContext : list Diagnostic -> string;
  (** [path.relative(process.cwd(), filePath)] *)
  relative_to_cwd : string -> string
}.

(** ** Code that has the same text in [index.cts] and in [index.ts] *)

(** The three [let] counters of [checkModuleFormat]. *)
Record Counts := { _esmCount : Z; cjsCount : Z; unknowCount : Z }.

Definition zeroCounts : Counts :=
  {| _esmCount := 0; cjsCount := 0; unknowCount := 0 |}.

(** [_esmCount++] *)
Definition incr_esmCount (c : Counts) : Counts :=
  {| _esmCount := _esmCount c + 1; cjsCount := cjsCount c;
     unknowCount := unknowCount c |}.

(** [cjsCount++] *)
Definition incr_cjsCount (c : Counts) : Counts :=
  {| _esmCount := _esmCount c; cjsCount := cjsCount c + 1;
     unknowCount := unknowCount c |}.

(** [unknowCount++] *)
Definition incr_unknowCount (c : Counts) : Counts :=
  {| _esmCount := _esmCount c; cjsCount := cjsCount c;
     unknowCount := unknowCount c + 1 |}.

(** "Determine the module format based on what we found": the chain of
    [if]s that ends the [try] block. *)
Definition count_format (f : Flags) (c : Counts) : Counts :=
  if hasESMImports f && negb (hasCommonJS f) then incr_esmCount c
  else if hasCommonJS f && negb (hasESMImports f) then incr_cjsCount c
  else if hasESMImports f && hasCommonJS f then
    (* Mixed - probably ESM with dynamic imports or similar *)
    incr_esmCount c
  else c.

Definition newline : string := String (ascii_of_nat 10) EmptyString.

Section Shared.
Context `{TypeScript}.

(** The [try] block up to the end of the traversal: parse, then walk
    with both markers [false]. *)
Definition traverse (dep : DepsFile) : result Flags :=
  match createSourceFile (file dep) (content dep) with
  | Ok sourceFile => walk sourceFile noFlags
  | Throw e => Throw e
  end.

(** One iteration of [for (const dep of deps)]: the [try] and its
    [catch]. *)
Definition checkModuleFormat_iteration (dep : DepsFile) (c : Counts)
  : Proc Counts :=
  match traverse dep with
  | Ok f => ret (count_format f c)
  | Throw error =>
    emit (console_error
            ("Error checking module format for " +:+ file dep +:+ " : "
             +:+ newline +:+ " " +:+ toString error)) ;;
    ret (incr_unknowCount c)
  end.

(** [checkModuleFormat] from its three [let]s to the end of the loop. *)
Definition checkModuleFormat_loop (deps : list DepsFile) : Proc Counts :=
  for_of deps checkModuleFormat_iteration zeroCounts.

(** [checkTypes]; it returns [true] or [undefined]. *)
Definition checkTypes (deps : list DepsFile)
    (compilerOptions : CompilerOptions) : Proc (option bool) :=
  if negb (default false (noCheck compilerOptions)) then
    emit (console_time "types checked") ;;
    let filePaths := map file deps in
    program ← call (createProgram filePaths compilerOptions);
    _err ← for_of filePaths (fun filePath _err =>
        match getSourceFile program filePath with
        | None =>
          emit (console_error
                  ("File not found: " +:+ relative_to_cwd filePath)) ;;
          process_exit 1
        | Some sourceFile =>
          let diagnostics :=
            getSyntacticDiagnostics program sourceFile
            ++ getSemanticDiagnostics program sourceFile
            ++ getDeclarationDiagnostics program sourceFile in
          if 0 <? Z.of_nat (length diagnostics) then
            emit (console_error
                    (formatDiagnosticsWithColorAndContext diagnostics)) ;;
            ret true
          else ret _err
        end) false;
    if (_err : bool) then process_exit 1
    else emit (console_timeEnd "types checked") ;; ret (Some true)
  else ret None.

End Shared.

(** ** [src/index.cts]: the lenient entry point *)

Module index_cts.
Section Lenient.
Context `{TypeScript}.

(** [checkExtGroup]: the six flags of the batch, as an object. *)
Definition checkExtGroup (deps : list DepsFile) : JSObject :=
  let exts := map (fun dep => path.extname (file dep)) deps in
  let jsesmSet := jsesm_exts in
  let jscjsSet := jscjs_exts in
  let tsesmSet := tsesm_exts in
  let tscjsSet := tscjs_exts in
  let jsxSet := jsx_exts in
  let allSet := all_exts in
  let isCjs :=
    every exts (fun i => has jscjsSet i)
    || every exts (fun i => has tscjsSet i) in
  let isJsx := every exts (fun i => has jsxSet i) in
  let isJs := every exts (fun i => has jsesmSet i) in
  let isTs := every exts (fun i => has tsesmSet i) in
  let isBoth := isJs && isTs in
  let isNone := negb (every exts (fun i => has allSet i)) in
  {[ "isNone" := JSBool isNone;
     "isJsx" := JSBool isJsx;
     "isCjs" := JSBool isCjs;
     "isBoth" := JSBool isBoth;
     "isJs" := JSBool isJs;
     "isTs" := JSBool isTs ]}.

(** [checkModuleFormat]: [return { unknowCount, cjsCount }] after the
    loop. *)
Definition checkModuleFormat (deps : list DepsFile) : Proc JSObject :=
  c ← checkModuleFormat_loop deps;
  ret {[ "unknowCount" := JSNumber (unknowCount c);
         "cjsCount" := JSNumber (cjsCount c) ]}.

(** [check] *)
Definition check (deps : list DepsFile) (compilerOptions : CompilerOptions)
  : Proc JSObject :=
  try_catch (checkTypes deps compilerOptions ;; ret ())
    (fun err =>
       if truthy err then
         throw {| truthy := true;
                  toString := "Error: Error when type checking" |}
       else ret ()) ;;
  let ce := checkExtGroup deps in
  cm ← checkModuleFormat deps;
  ret (spread ce cm).

End Lenient.
End index_cts.

(** ** [src/index.ts]: the strict entry point *)

Module index_ts.
Section Strict.
Context `{TypeScript}.

(** [checkJSX] *)
Definition checkJSX (deps : list DepsFile) : bool :=
  let exts := map (fun dep => path.extname (file dep)) deps in
  let jsxSet := jsx_exts in
  every exts (fun i => has jsxSet i).

Definition warn_isNone : string :=
  "Bundler detects none Javascript or Typescript extensions in the dependencies tree.".
Definition warn_isCjs : string :=
  "The package detects commonjs extensions (.cjd or .cts) in the dependencies tree, which is currently unsupported.".
Definition warn_isBoth : string :=
  "The package detects both Javascript or Typescript extensions in the dependencies tree, currently unsupported.".
Definition warn_unknowCount : string :=
  "Unknown error when checking module types in the dependencies tree.".
Definition warn_cjsCount : string :=
  "The package detects CommonJs format  in the dependencies tree, currently unsupported.".

(** [checkExtGroup]: [true], or the process exits. *)
Definition checkExtGroup (deps : list DepsFile) : Proc bool :=
  let exts := map (fun dep => path.extname (file dep)) deps in
  let jsesmSet := jsesm_exts in
  let jscjsSet := jscjs_exts in
  let tsesmSet := tsesm_exts in
  let tscjsSet := tscjs_exts in
  let allSet := all_exts in
  let isCjs :=
    every exts (fun i => has jscjsSet i)
    || every exts (fun i => has tscjsSet i) in
  let isJs := every exts (fun i => has jsesmSet i) in
  let isTs := every exts (fun i => has tsesmSet i) in
  let isBoth := isJs && isTs in
  let isNone := negb (every exts (fun i => has allSet i)) in
  (if isNone then emit (console_warn warn_isNone) ;; process_exit 1
   else ret ()) ;;
  (if isCjs then emit (console_warn warn_isCjs) ;; process_exit 1
   else ret ()) ;;
  (if isBoth then emit (console_warn warn_isBoth) ;; process_exit 1
   else ret ()) ;;
  ret true.

(** [checkModuleFormat]: [true], or the process exits after the loop. *)
Definition checkModuleFormat (deps : list DepsFile) : Proc bool :=
  c ← checkModuleFormat_loop deps;
  (if negb (unknowCount c =? 0) then
     emit (console_warn warn_unknowCount) ;; process_exit 1
   else ret ()) ;;
  (if negb (cjsCount c =? 0) then
     emit (console_warn warn_cjsCount) ;; process_exit 1
   else ret ()) ;;
  ret true.

(** [fileExtensionAndFormat] *)
Definition fileExtensionAndFormat (deps : list DepsFile) : Proc bool :=
  emit (console_time "checked extension and module") ;;
  ce ← checkExtGroup deps;
  cm ← checkModuleFormat deps;
  emit (console_timeEnd "checked extension and module") ;;
  ret (ce && cm).

End Strict.
End index_ts.

(** ** What one file adds to the counters, and what it reports *)

Section Tally.
Context `{TypeScript}.

(** The counters after the iteration for [dep]. *)
Definition tally (dep : DepsFile) (c : Counts) : Counts :=
  match traverse dep with
  | Ok f => count_format f c
  | Throw _ => incr_unknowCount c
  end.

(** The events of the iteration for [dep]. *)
Definition report (dep : DepsFile) : list event :=
  match traverse dep with
  | Ok _ => []
  | Throw error =>
    [console_error
       ("Error checking module format for " +:+ file dep +:+ " : "
        +:+ newline +:+ " " +:+ toString error)]
  end.

(** The files of a batch whose traversal ends with neither marker set. *)
Definition agnostic (dep : DepsFile) : bool :=
  match traverse dep with
  | Ok f => negb (hasESMImports f) && negb (hasCommonJS f)
  | Throw _ => false
  end.

(** The files of a batch whose [try] block throws. *)
Definition failed (dep : DepsFile) : bool :=
  match traverse dep with
  | Ok _ => false
  | Throw _ => true
  end.

(** The counters after the iterations for [deps], from [c]. *)
Definition tally_all (deps : list DepsFile) (c : Counts) : Counts :=
  fold_left (fun c dep => tally dep c) deps c.

(** The events of the iterations for [deps]. *)
Definition report_all (deps : list DepsFile) : list event :=
  concat (map report deps).

End Tally.

Definition plus_counts (a b : Counts) : Counts :=
  {| _esmCount := _esmCount a + _esmCount b;
     cjsCount := cjsCount a + cjsCount b;
     unknowCount := unknowCount a + unknowCount b |}.

(** Reading a flag or a counter of a returned object. *)
Definition is_true_in (r : JSObject) (k : string) : Prop :=
  r !! k = Some (JSBool true).
Definition is_false_in (r : JSObject) (k : string) : Prop :=
  r !! k = Some (JSBool false).

(** The flag [k] of [r] is [true] exactly when [P] holds, and [false]
    exactly when it does not. *)
Definition flag_iff (r : JSObject) (k : string) (P : Prop) : Prop :=
  (is_true_in r k <-> P) /\ (is_false_in r k <-> ~ P).

(** The suffixes of a batch, as the extension classifier sees them. *)
Definition suffixes (deps : list DepsFile) : list string :=
  map (fun dep => path.extname (file dep)) deps.

(** ** Syntax trees of a few source texts, and an engine that knows them *)

Module Sample.

Definition token (k : ts.SyntaxKind) (src : string) : ts.Node :=
  ts.mkNode k None None [] EmptyString src [].

Definition ident (name : string) : ts.Node :=
  ts.mkNode ts.Identifier None None [] name name [].

Definition node (k : ts.SyntaxKind) (src : string) (cs : list ts.Node)
  : ts.Node :=
  ts.mkNode k None None [] EmptyString src cs.

Definition source (src : string) (statements : list ts.Node) : ts.Node :=
  node ts.SourceFile src
       (statements ++ [token ts.EndOfFileToken EmptyString]).

(** [const NAME = INIT;] with the given modifiers: [src] is the text of
    the statement, [decls] of its declaration list and [decl] of its one
    declaration. *)
Definition variableStatement (mods : option (list ts.Node))
    (src decls decl name : string) (init : ts.Node) : ts.Node :=
  ts.mkNode ts.VariableStatement mods None [] EmptyString src
    (default [] mods
     ++ [node ts.VariableDeclarationList decls
           [node ts.VariableDeclaration decl [ident name; init]]]).

(** [require("w")] *)
Definition require_call : ts.Node :=
  ts.mkNode ts.CallExpression None (Some (ident "require"))
    [token ts.StringLiteral "'w'"] EmptyString "require('w')"
    [ident "require"; token ts.StringLiteral "'w'"].

(** [const a = 1;] *)
Definition const_a_text : string := "const a = 1;".
Definition const_a_tree : ts.Node :=
  source const_a_text
    [variableStatement None "const a = 1;" "const a = 1" "a = 1" "a"
       (token ts.NumericLiteral "1")].

(** [export const a = 1;] *)
Definition export_const_a_text : string := "export const a = 1;".
Definition export_const_a_tree : ts.Node :=
  source export_const_a_text
    [variableStatement (Some [token ts.ExportKeyword "export"])
       "export const a = 1;" "const a = 1" "a = 1" "a"
       (token ts.NumericLiteral "1")].

(** [const z = require('w');] *)
Definition require_text : string := "const z = require('w');".
Definition require_tree : ts.Node :=
  source require_text
    [variableStatement None "const z = require('w');"
       "const z = require('w')" "z = require('w')" "z" require_call].

(** [import x from 'y'; const z = require('w');] *)
Definition mixed_text : string :=
  "import x from 'y'; const z = require('w');".
Definition mixed_tree : ts.Node :=
  source mixed_text
    [node ts.ImportDeclaration "import x from 'y';"
       [node ts.ImportClause "x" [ident "x"];
        token ts.StringLiteral "'y'"];
     variableStatement None "const z = require('w');"
       "const z = require('w')" "z = require('w')" "z" require_call].

(** [module.exports = a;] *)
Definition module_exports_text : string := "module.exports = a;".
Definition module_exports_tree : ts.Node :=
  source module_exports_text
    [node ts.ExpressionStatement "module.exports = a;"
       [node ts.BinaryExpression "module.exports = a"
          [node ts.PropertyAccessExpression "module.exports"
             [ident "module"; ident "exports"];
           token ts.EqualsToken "=";
           ident "a"]]].

Definition parse_failure : Thrown :=
  {| truthy := true; toString := "Error: the parser gave up" |}.

(** A parser that knows the texts above and throws on any other: the
    throw stands for a failure inside the parser.  (The parser of
    TypeScript itself recovers from malformed text and returns a tree,
    see [Tolerant].) *)
Definition parse (fileName sourceText : string) : result ts.Node :=
  if String.eqb sourceText const_a_text then Ok const_a_tree
  else if String.eqb sourceText export_const_a_text
  then Ok export_const_a_tree
  else if String.eqb sourceText require_text then Ok require_tree
  else if String.eqb sourceText mixed_text then Ok mixed_tree
  else if String.eqb sourceText module_exports_text
  then Ok module_exports_tree
  else Throw parse_failure.

(** An engine with that parser and a type checker that finds every
    file and reports nothing. *)
Definition engine : TypeScript :=
  {| createSourceFile := parse;
     Program := unit;
     createProgram := fun _ _ => Ok ();
     getSourceFile := fun _ _ => Some (source EmptyString []);
     getSyntacticDiagnostics := fun _ _ => [];
     getSemanticDiagnostics := fun _ _ => [];
     getDeclarationDiagnostics := fun _ _ => [];
     formatDiagnosticsWithColorAndContext :=
       fun ds => String.concat newline (map messageText ds);
     relative_to_cwd := fun p => p |}.

Definition agnostic_file : DepsFile :=
  {| file := "a.ts"; content := const_a_text |}.
Definition esm_file : DepsFile :=
  {| file := "x.ts"; content := export_const_a_text |}.
Definition cjs_file : DepsFile :=
  {| file := "c.js"; content := require_text |}.
Definition mixed_file : DepsFile :=
  {| file := "m.ts"; content := mixed_text |}.
Definition exports_file : DepsFile :=
  {| file := "e.js"; content := module_exports_text |}.
Definition broken_file : DepsFile :=
  {| file := "b.ts"; content := "const = ;" |}.

End Sample.

(** ** The traversal, node by node *)

(** The iteration of [ts.forEachChild(node, walk)] over the children. *)
Fixpoint walk_children (cs : list ts.Node) (st : Flags) : result Flags :=
  match cs with
  | [] => Ok st
  | c :: cs' =>
    match walk c st with
    | Ok st' => walk_children cs' st'
    | Throw e => Throw e
    end
  end.

(** The two conditions under which [walk] assigns [hasESMImports] at a
    node. *)
Definition esm_marker (node : ts.Node) : bool :=
  (ts.isImportDeclaration node
   || ts.isImportEqualsDeclaration node
   || ts.isExportDeclaration node
   || ts.isExportSpecifier node
   || ts.isExportAssignment node)
  || ((ts.isVariableStatement node
       || ts.isFunctionDeclaration node
       || ts.isInterfaceDeclaration node
       || ts.isTypeAliasDeclaration node
       || ts.isEnumDeclaration node
       || ts.isClassDeclaration node)
      && match ts.modifiers node with
         | Some mods => some mods (ts.is_kind ts.ExportKeyword)
         | None => false
         end).

(** The two conditions under which [walk] assigns [hasCommonJS] at a
    node. *)
Definition cjs_marker (node : ts.Node) : bool :=
  (ts.isCallExpression node
   && match ts.expression node with
      | Some callee =>
        ts.isIdentifier callee
        && String.eqb (ts.text callee) "require"
        && (0 <? Z.of_nat (length (ts.arguments node)))
      | None => false
      end)
  || (ts.isPropertyAccessExpression node
      && (String.prefix "module.exports" (ts.getText node)
          || String.prefix "exports." (ts.getText node))).

(** A call expression without a callee: [ts.isIdentifier(node.expression)]
    throws on it. *)
Definition call_without_callee (node : ts.Node) : bool :=
  ts.isCallExpression node
  && match ts.expression node with Some _ => false | None => true end.

(** The nodes of a tree in the order [walk] visits them: a node, then
    the trees of its children. *)
Fixpoint nodes (node : ts.Node) : list ts.Node :=
  node :: flat_map nodes (ts.children node).

(** [a] with the markers of [b] added. *)
Definition or_flags (a b : Flags) : Flags :=
  {| hasESMImports := hasESMImports a || hasESMImports b;
     hasCommonJS := hasCommonJS a || hasCommonJS b |}.

(** The markers of a list of nodes. *)
Definition markers (ns : list ts.Node) : Flags :=
  {| hasESMImports := existsb esm_marker ns;
     hasCommonJS := existsb cjs_marker ns |}.

(** ** How a file is counted *)

Section Verdicts.
Context `{TypeScript}.

(** The files [_esmCount] counts: the traversal ends with the ESM marker
    set (with or without the CommonJS marker). *)
Definition counted_esm (dep : DepsFile) : bool :=
  match traverse dep with
  | Ok f => hasESMImports f
  | Throw _ => false
  end.

(** The files [cjsCount] counts: the traversal ends with the CommonJS
    marker set and the ESM marker not set. *)
Definition counted_cjs (dep : DepsFile) : bool :=
  match traverse dep with
  | Ok f => hasCommonJS f && negb (hasESMImports f)
  | Throw _ => false
  end.

End Verdicts.

(** The number of elements of [xs] that satisfy [p]. *)
Definition how_many {A} (p : A -> bool) (xs : list A) : Z :=
  Z.of_nat (length (List.filter p xs)).

(** ** The batches the strict extension check lets through *)

(** Every suffix is a recognized one, and the suffixes are neither all
    [.cjs] nor all [.cts] (so there is at least one). *)
Definition accepted (exts : list string) : Prop :=
  Forall (fun e => e ∈ [".cjs"; ".js"; ".mjs"; ".cts"; ".ts"; ".mts";
                        ".jsx"; ".tsx"]) exts
  /\ ~ Forall (fun e => e = ".cjs") exts
  /\ ~ Forall (fun e => e = ".cts") exts.

(** ** The loop of [checkTypes] *)

Section TypeChecking.
Context `{TypeScript}.

(** [const diagnostics = [...syntactic, ...semantic, ...declaration]] *)
Definition diagnostics_of (program : Program) (sourceFile : ts.Node)
  : list Diagnostic :=
  getSyntacticDiagnostics program sourceFile
  ++ getSemanticDiagnostics program sourceFile
  ++ getDeclarationDiagnostics program sourceFile.

(** One iteration of [for (const filePath of filePaths)], over [_err]. *)
Definition checkTypes_iteration (program : Program) (filePath : string)
    (_err : bool) : Proc bool :=
  match getSourceFile program filePath with
  | None =>
    emit (console_error
            ("File not found: " +:+ relative_to_cwd filePath)) ;;
    process_exit 1
  | Some sourceFile =>
    let diagnostics :=
      getSyntacticDiagnostics program sourceFile
      ++ getSemanticDiagnostics program sourceFile
      ++ getDeclarationDiagnostics program sourceFile in
    if 0 <? Z.of_nat (length diagnostics) then
      emit (console_error
              (formatDiagnosticsWithColorAndContext diagnostics)) ;;
      ret true
    else ret _err
  end.

(** The program has a source file for the path. *)
Definition found (program : Program) (filePath : string) : bool :=
  match getSourceFile program filePath with
  | Some _ => true
  | None => false
  end.

(** The program has a source file for the path, with diagnostics. *)
Definition has_diagnostics (program : Program) (filePath : string) : bool :=
  match getSourceFile program filePath with
  | Some sourceFile =>
    0 <? Z.of_nat (length (diagnostics_of program sourceFile))
  | None => false
  end.

(** What the loop prints for a path whose source file is found. *)
Definition diagnostics_report (program : Program) (filePath : string)
  : list event :=
  match getSourceFile program filePath with
  | Some sourceFile =>
    if 0 <? Z.of_nat (length (diagnostics_of program sourceFile)) then
      [console_error
         (formatDiagnosticsWithColorAndContext
            (diagnostics_of program sourceFile))]
    else []
  | None => []
  end.

End TypeChecking.

(** The eight properties of the object [check] returns. *)
Definition check_result (deps : list DepsFile) (c : Counts) : JSObject :=
  spread (index_cts.checkExtGroup deps)
         {[ "unknowCount" := JSNumber (unknowCount c);
            "cjsCount" := JSNumber (cjsCount c) ]}.

(** [new Error("Error when type checking")] *)
Definition type_checking_error : Thrown :=
  {| truthy := true; toString := "Error: Error when type checking" |}.

(** ** An engine with a type checker that finds errors *)

Module Checker.

Definition crash : Thrown :=
  {| truthy := true; toString := "Error: cannot create the program" |}.

Definition thrown_null : Thrown := {| truthy := false; toString := "null" |}.

(** The source file the sample program has for a path; the path is kept
    in its [text]. *)
Definition sourceFile_of (p : string) : ts.Node :=
  ts.mkNode ts.SourceFile None None [] p EmptyString [].

(** The parser of [Sample]; [createProgram] throws when [crash.ts] (an
    error) or [null.ts] (the value [null]) is among the files; the
    program has every file but [missing.ts], and one semantic diagnostic
    for [wrong.ts]. *)
Definition engine : TypeScript :=
  {| createSourceFile := Sample.parse;
     Program := list string;
     createProgram := fun paths _ =>
       if existsb (String.eqb "crash.ts") paths then Throw crash
       else if existsb (String.eqb "null.ts") paths then Throw thrown_null
       else Ok paths;
     getSourceFile := fun _ p =>
       if String.eqb p "missing.ts" then None else Some (sourceFile_of p);
     getSyntacticDiagnostics := fun _ _ => [];
     getSemanticDiagnostics := fun _ sf =>
       if String.eqb (ts.text sf) "wrong.ts"
       then [ {| messageText := "wrong.ts: error TS2322" |} ]
       else [];
     getDeclarationDiagnostics := fun _ _ => [];
     formatDiagnosticsWithColorAndContext :=
       fun ds => String.concat newline (map messageText ds);
     relative_to_cwd := fun p => p |}.

Definition good_file : DepsFile :=
  {| file := "x.ts"; content := Sample.export_const_a_text |}.
Definition wrong_file : DepsFile :=
  {| file := "wrong.ts"; content := Sample.export_const_a_text |}.
Definition missing_file : DepsFile :=
  {| file := "missing.ts"; content := Sample.export_const_a_text |}.
Definition crash_file : DepsFile :=
  {| file := "crash.ts"; content := Sample.export_const_a_text |}.
Definition null_file : DepsFile :=
  {| file := "null.ts"; content := Sample.export_const_a_text |}.

Definition checking : CompilerOptions := {| noCheck := None |}.

End Checker.

(** ** A parser that recovers from malformed text *)

Module Tolerant.

(** [const = ;]: the parser reports "Variable declaration expected",
    skips the [=] and returns a variable statement whose declaration
    list is empty. *)
Definition malformed_text : string := "const = ;".
Definition malformed_tree : ts.Node :=
  Sample.source malformed_text
    [Sample.node ts.VariableStatement "const = ;"
       [Sample.node ts.VariableDeclarationList "const =" []]].

(** The parser of [Sample], which also knows the malformed text. *)
Definition parse (fileName sourceText : string) : result ts.Node :=
  if String.eqb sourceText malformed_text then Ok malformed_tree
  else Sample.parse fileName sourceText.

Definition engine : TypeScript :=
  {| createSourceFile := parse;
     Program := unit;
     createProgram := fun _ _ => Ok ();
     getSourceFile := fun _ _ => Some (Sample.source EmptyString []);
     getSyntacticDiagnostics := fun _ _ => [];
     getSemanticDiagnostics := fun _ _ => [];
     getDeclarationDiagnostics := fun _ _ => [];
     formatDiagnosticsWithColorAndContext :=
       fun ds => String.concat newline (map messageText ds);
     relative_to_cwd := fun p => p |}.


End Tolerant.

(** * Properties *)

(** ** [path.extname] on sample paths *)

Example extname_a_ts : path.extname "a.ts" = ".ts".
Proof. reflexivity. Qed.

Example extname_nested : path.extname "src/lib.v2/index.test.mts" = ".mts".
Proof. reflexivity. Qed.

Example extname_dotfile : path.extname ".bashrc" = EmptyString.
Proof. reflexivity. Qed.

Example extname_dotdot : path.extname "a/.." = EmptyString.
Proof. reflexivity. Qed.

Example extname_trailing_slash : path.extname "pkg.d/" = ".d".
Proof. reflexivity. Qed.

Example extname_no_dot : path.extname "dir.x/Makefile" = EmptyString.
Proof. reflexivity. Qed.

Example extname_trailing_dot : path.extname "a." = ".".
Proof. reflexivity. Qed.

(** ** The process monad *)

Lemma bind_returned {A B} (m : Proc A) (k : A -> Proc B) tr a tr' :
  m tr = (Returned a, tr') -> (m ≫= k) tr = k a tr'.
Proof. intros Hm. unfold mbind, Proc_bind. rewrite Hm. reflexivity. Qed.

Lemma bind_exited {A B} (m : Proc A) (k : A -> Proc B) tr code tr' :
  m tr = (Exited code, tr') -> (m ≫= k) tr = (Exited code, tr').
Proof. intros Hm. unfold mbind, Proc_bind. rewrite Hm. reflexivity. Qed.

Lemma emit_run e tr : emit e tr = (Returned (), tr ++ [e]).
Proof. reflexivity. Qed.

(** ** Counters *)

Lemma Counts_eq (a b : Counts) :
  _esmCount a = _esmCount b -> cjsCount a = cjsCount b ->
  unknowCount a = unknowCount b -> a = b.
Proof. destruct a, b; simpl; congruence. Qed.

Lemma plus_counts_zero_r c : plus_counts c zeroCounts = c.
Proof. apply Counts_eq; simpl; lia. Qed.

Lemma plus_counts_assoc a b c :
  plus_counts (plus_counts a b) c = plus_counts a (plus_counts b c).
Proof. apply Counts_eq; simpl; lia. Qed.

Lemma plus_counts_swap a b c :
  plus_counts (plus_counts a b) c = plus_counts (plus_counts a c) b.
Proof. apply Counts_eq; simpl; lia. Qed.

Lemma count_format_plus f c :
  count_format f c = plus_counts c (count_format f zeroCounts).
Proof.
  unfold count_format.
  destruct (hasESMImports f), (hasCommonJS f); simpl;
    apply Counts_eq; simpl; lia.
Qed.

(** ** The loop of [checkModuleFormat] *)

Section Loop.
Context `{TypeScript}.

Lemma iteration_run dep c tr :
  checkModuleFormat_iteration dep c tr
  = (Returned (tally dep c), tr ++ report dep).
Proof.
  unfold checkModuleFormat_iteration, tally, report.
  destruct (traverse dep) as [f|e].
  - rewrite app_nil_r. reflexivity.
  - reflexivity.
Qed.

Lemma for_of_run deps : forall c tr,
  for_of deps checkModuleFormat_iteration c tr
  = (Returned (tally_all deps c), tr ++ report_all deps).
Proof.
  induction deps as [|dep deps IH]; intros c tr.
  - unfold report_all. simpl. rewrite app_nil_r. reflexivity.
  - cbn [for_of].
    rewrite (bind_returned _ _ _ _ _ (iteration_run dep c tr)).
    rewrite IH. unfold report_all. simpl. rewrite app_assoc. reflexivity.
Qed.

(** The loop always runs to its end: it returns the tally of the whole
    batch and has reported every failed file. *)
Lemma loop_run deps tr :
  checkModuleFormat_loop deps tr
  = (Returned (tally_all deps zeroCounts), tr ++ report_all deps).
Proof. apply for_of_run. Qed.

Lemma tally_plus dep c :
  tally dep c = plus_counts c (tally dep zeroCounts).
Proof.
  unfold tally. destruct (traverse dep) as [f|e].
  - apply count_format_plus.
  - apply Counts_eq; simpl; lia.
Qed.

Lemma tally_all_plus deps : forall c,
  tally_all deps c = plus_counts c (tally_all deps zeroCounts).
Proof.
  induction deps as [|dep deps IH]; intros c; simpl.
  - symmetry. apply plus_counts_zero_r.
  - unfold tally_all in *. simpl.
    rewrite (IH (tally dep c)), (IH (tally dep zeroCounts)).
    rewrite (tally_plus dep c). apply plus_counts_assoc.
Qed.

Lemma tally_all_app pre post c :
  tally_all (pre ++ post) c = tally_all post (tally_all pre c).
Proof. unfold tally_all. apply fold_left_app. Qed.

(** A file adds the same to the counters wherever it stands in the
    batch. *)
Lemma tally_all_insert pre dep post :
  tally_all (pre ++ dep :: post) zeroCounts
  = plus_counts (tally_all (pre ++ post) zeroCounts) (tally dep zeroCounts).
Proof.
  rewrite !tally_all_app.
  change (tally_all (dep :: post) ?c) with (tally_all post (tally dep c)).
  rewrite (tally_all_plus post (tally dep _)).
  rewrite (tally_all_plus post (tally_all pre _)).
  rewrite (tally_plus dep (tally_all pre _)).
  apply plus_counts_swap.
Qed.

Lemma report_all_insert pre dep post :
  report_all (pre ++ dep :: post)
  = report_all pre ++ report dep ++ report_all post.
Proof. unfold report_all. rewrite map_app, concat_app. reflexivity. Qed.

Lemma report_all_app pre post :
  report_all (pre ++ post) = report_all pre ++ report_all post.
Proof. unfold report_all. rewrite map_app, concat_app. reflexivity. Qed.

(** No counter is ever negative. *)
Lemma tally_nonneg dep c :
  0 <= _esmCount c /\ 0 <= cjsCount c /\ 0 <= unknowCount c ->
  0 <= _esmCount (tally dep c) /\ 0 <= cjsCount (tally dep c)
  /\ 0 <= unknowCount (tally dep c).
Proof.
  unfold tally, count_format. intros Hc.
  destruct (traverse dep) as [f|e]; [|simpl; lia].
  destruct (hasESMImports f), (hasCommonJS f); simpl; lia.
Qed.

Lemma tally_all_nonneg deps : forall c,
  0 <= _esmCount c /\ 0 <= cjsCount c /\ 0 <= unknowCount c ->
  0 <= _esmCount (tally_all deps c) /\ 0 <= cjsCount (tally_all deps c)
  /\ 0 <= unknowCount (tally_all deps c).
Proof.
  induction deps as [|dep deps IH]; intros c Hc; [exact Hc|].
  apply (IH (tally dep c)), tally_nonneg, Hc.
Qed.

End Loop.

(** ** The module-format analyzer *)

Section ModuleFormat.
Context `{TypeScript}.

Lemma lenient_run deps tr :
  index_cts.checkModuleFormat deps tr
  = (Returned
       {[ "unknowCount" := JSNumber (unknowCount (tally_all deps zeroCounts));
          "cjsCount" := JSNumber (cjsCount (tally_all deps zeroCounts)) ]},
     tr ++ report_all deps).
Proof.
  unfold index_cts.checkModuleFormat.
  rewrite (bind_returned _ _ _ _ _ (loop_run deps tr)). reflexivity.
Qed.

Lemma strict_run deps tr :
  index_ts.checkModuleFormat deps tr
  = let c := tally_all deps zeroCounts in
    let tr' := tr ++ report_all deps in
    if negb (unknowCount c =? 0) then
      (Exited 1, tr' ++ [console_warn index_ts.warn_unknowCount])
    else if negb (cjsCount c =? 0) then
      (Exited 1, tr' ++ [console_warn index_ts.warn_cjsCount])
    else (Returned true, tr').
Proof.
  unfold index_ts.checkModuleFormat.
  rewrite (bind_returned _ _ _ _ _ (loop_run deps tr)). cbv zeta.
  destruct (negb (unknowCount (tally_all deps zeroCounts) =? 0));
    [reflexivity|].
  destruct (negb (cjsCount (tally_all deps zeroCounts) =? 0)); reflexivity.
Qed.

Lemma tally_completed dep f c :
  traverse dep = Ok f -> tally dep c = count_format f c.
Proof. unfold tally. intros ->. reflexivity. Qed.

Lemma report_completed dep f : traverse dep = Ok f -> report dep = [].
Proof. unfold report. intros ->. reflexivity. Qed.


(** C1: a file whose traversal sets both markers is counted as ESM: its
    iteration adds one to [_esmCount], leaves [cjsCount] and
    [unknowCount] as they are and reports nothing; this is so wherever
    the file stands in a batch; alone in a batch, the lenient result
    has both of its counters at 0 and the strict check passes. *)
Theorem mixed_file_counts_as_esm (dep : DepsFile) (f : Flags) :
  traverse dep = Ok f ->
  hasESMImports f = true ->
  hasCommonJS f = true ->
  (forall c tr,
      checkModuleFormat_iteration dep c tr
      = (Returned {| _esmCount := _esmCount c + 1;
                     cjsCount := cjsCount c;
                     unknowCount := unknowCount c |}, tr))
  /\ (forall pre post tr, exists c tr',
         checkModuleFormat_loop (pre ++ post) tr = (Returned c, tr')
         /\ checkModuleFormat_loop (pre ++ dep :: post) tr
            = (Returned {| _esmCount := _esmCount c + 1;
                           cjsCount := cjsCount c;
                           unknowCount := unknowCount c |}, tr'))
  /\ (forall tr,
         index_cts.checkModuleFormat [dep] tr
         = (Returned {[ "unknowCount" := JSNumber 0;
                        "cjsCount" := JSNumber 0 ]}, tr))
  /\ (forall tr, index_ts.checkModuleFormat [dep] tr = (Returned true, tr)).
Proof.
  intros Ht He Hc.
  assert (Htally : forall c, tally dep c = incr_esmCount c).
  { intros c. rewrite (tally_completed _ _ _ Ht).
    unfold count_format. rewrite He, Hc. reflexivity. }
  assert (Hrep : report dep = []) by exact (report_completed _ _ Ht).
  repeat split.
  - intros c tr. rewrite iteration_run, Htally, Hrep, app_nil_r.
    reflexivity.
  - intros pre post tr.
    exists (tally_all (pre ++ post) zeroCounts), (tr ++ report_all (pre ++ post)).
    split; [apply loop_run|].
    rewrite loop_run, tally_all_insert, report_all_insert, Hrep, Htally.
    rewrite report_all_app. f_equal. apply f_equal.
    apply Counts_eq; simpl; lia.
  - intros tr. rewrite lenient_run.
    unfold tally_all, report_all. simpl.
    rewrite Htally, Hrep, app_nil_r. reflexivity.
  - intros tr. rewrite strict_run.
    unfold tally_all, report_all. simpl.
    rewrite Htally, Hrep, app_nil_r. reflexivity.
Qed.

(** C3: a file whose traversal sets neither marker adds to no counter
    and is not an error: its iteration leaves the three counters as
    they are and reports nothing, and a batch with the file gives what
    the batch without it gives. *)
Theorem agnostic_file_counts_nowhere (dep : DepsFile) (f : Flags) :
  traverse dep = Ok f ->
  hasESMImports f = false ->
  hasCommonJS f = false ->
  (forall c tr, checkModuleFormat_iteration dep c tr = (Returned c, tr))
  /\ (forall pre post tr,
         checkModuleFormat_loop (pre ++ dep :: post) tr
         = checkModuleFormat_loop (pre ++ post) tr)
  /\ (forall pre post tr,
         index_cts.checkModuleFormat (pre ++ dep :: post) tr
         = index_cts.checkModuleFormat (pre ++ post) tr)
  /\ (forall pre post tr,
         index_ts.checkModuleFormat (pre ++ dep :: post) tr
         = index_ts.checkModuleFormat (pre ++ post) tr).
Proof.
  intros Ht He Hc.
  assert (Htally : forall c, tally dep c = c).
  { intros c. rewrite (tally_completed _ _ _ Ht).
    unfold count_format. rewrite He, Hc. reflexivity. }
  assert (Hrep : report dep = []) by exact (report_completed _ _ Ht).
  assert (Hall : forall pre post,
             tally_all (pre ++ dep :: post) zeroCounts
             = tally_all (pre ++ post) zeroCounts).
  { intros pre post.
    rewrite tally_all_insert, Htally. apply plus_counts_zero_r. }
  assert (Hreps : forall pre post,
             report_all (pre ++ dep :: post) = report_all (pre ++ post)).
  { intros pre post.
    rewrite report_all_insert, Hrep, report_all_app. reflexivity. }
  repeat split.
  - intros c tr. rewrite iteration_run, Htally, Hrep, app_nil_r.
    reflexivity.
  - intros pre post tr. rewrite !loop_run, Hall, Hreps. reflexivity.
  - intros pre post tr. rewrite !lenient_run, Hall, Hreps. reflexivity.
  - intros pre post tr. rewrite !strict_run, Hall, Hreps. reflexivity.
Qed.


End ModuleFormat.

Section Census.
Context `{TypeScript}.

(** What a single iteration can do to the counters. *)
Lemma tally_cases dep c :
  (failed dep = true /\ agnostic dep = false
   /\ tally dep c = incr_unknowCount c)
  \/ (failed dep = false /\ agnostic dep = true /\ tally dep c = c)
  \/ (failed dep = false /\ agnostic dep = false
      /\ (tally dep c = incr_esmCount c \/ tally dep c = incr_cjsCount c)).
Proof.
  unfold failed, agnostic, tally, count_format.
  destruct (traverse dep) as [f|e]; [|left; auto].
  right. destruct (hasESMImports f), (hasCommonJS f); simpl; auto.
Qed.

Lemma tally_all_census deps : forall c,
  unknowCount (tally_all deps c)
  = unknowCount c + Z.of_nat (length (List.filter failed deps))
  /\ _esmCount (tally_all deps c) + cjsCount (tally_all deps c)
     + unknowCount (tally_all deps c)
     + Z.of_nat (length (List.filter agnostic deps))
     = _esmCount c + cjsCount c + unknowCount c + Z.of_nat (length deps).
Proof.
  induction deps as [|dep deps IH]; intros c.
  - simpl. lia.
  - change (tally_all (dep :: deps) c) with (tally_all deps (tally dep c)).
    destruct (IH (tally dep c)) as [IHu IHs].
    cbn [List.filter].
    destruct (tally_cases dep c)
      as [(-> & -> & Ht)|[(-> & -> & Ht)|(-> & -> & [Ht | Ht])]];
      rewrite Ht in IHu, IHs |- *;
      cbn [length incr_unknowCount incr_esmCount incr_cjsCount
           _esmCount cjsCount unknowCount] in *; lia.
Qed.

(** C2, as the code has it: a file adds one to exactly one of the three
    counters, or to none when its traversal ends with neither marker
    set.  [unknowCount] is the number of files whose [try] block threw,
    and the three counters add up to the size of the batch less the
    number of files with neither marker. *)
Theorem counters_partition_the_batch (deps : list DepsFile) (tr : list event) :
  exists c tr',
    checkModuleFormat_loop deps tr = (Returned c, tr')
    /\ unknowCount c = Z.of_nat (length (List.filter failed deps))
    /\ _esmCount c + cjsCount c + unknowCount c
       = Z.of_nat (length deps)
         - Z.of_nat (length (List.filter agnostic deps))
    /\ _esmCount c + cjsCount c
       = Z.of_nat (length deps)
         - Z.of_nat (length (List.filter failed deps))
         - Z.of_nat (length (List.filter agnostic deps))
    /\ 0 <= _esmCount c /\ 0 <= cjsCount c /\ 0 <= unknowCount c
    /\ forall dep c0,
        (failed dep = true /\ agnostic dep = false
         /\ tally dep c0 = incr_unknowCount c0)
        \/ (failed dep = false /\ agnostic dep = true /\ tally dep c0 = c0)
        \/ (failed dep = false /\ agnostic dep = false
            /\ (tally dep c0 = incr_esmCount c0
                \/ tally dep c0 = incr_cjsCount c0)).
Proof.
  exists (tally_all deps zeroCounts), (tr ++ report_all deps).
  destruct (tally_all_census deps zeroCounts) as [Hu Hs].
  pose proof (tally_all_nonneg deps zeroCounts) as Hnn.
  simpl in Hu, Hs, Hnn.
  split; [apply loop_run|].
  repeat split; try lia.
  apply tally_cases.
Qed.

(** C9: the analyzer gives the same counters when it is run again on
    the same batch: a second run, started in the state the first run
    left (its trace), returns what the first returned; the counters do
    not depend on the trace at all. *)
Theorem analyzer_is_repeatable (deps : list DepsFile) (tr : list event) :
  (exists c tr1 tr2,
      checkModuleFormat_loop deps tr = (Returned c, tr1)
      /\ checkModuleFormat_loop deps tr1 = (Returned c, tr2))
  /\ (exists r tr2,
         (r1 ← index_cts.checkModuleFormat deps;
          r2 ← index_cts.checkModuleFormat deps;
          mret (r1, r2)) tr = (Returned (r, r), tr2))
  /\ (forall tr0,
         fst (checkModuleFormat_loop deps tr0)
         = fst (checkModuleFormat_loop deps tr))
  /\ (forall tr0,
         fst (index_ts.checkModuleFormat deps tr0)
         = fst (index_ts.checkModuleFormat deps tr)).
Proof.
  repeat split.
  - eexists _, _, _. split; apply loop_run.
  - eexists _, _.
    rewrite (bind_returned _ _ _ _ _ (lenient_run deps tr)).
    rewrite (bind_returned _ _ _ _ _ (lenient_run deps _)).
    reflexivity.
  - intros tr0. rewrite !loop_run. reflexivity.
  - intros tr0. rewrite !strict_run. cbv zeta.
    destruct (negb (unknowCount (tally_all deps zeroCounts) =? 0));
      [reflexivity|].
    destruct (negb (cjsCount (tally_all deps zeroCounts) =? 0));
      reflexivity.
Qed.

End Census.

(** C2 as the specification states it fails on a batch of one file that
    reads [const a = 1;]: the traversal does not throw, the three
    counters stay at 0, and the batch has one file. *)
Lemma counters_do_not_cover_the_batch :
  @checkModuleFormat_loop Sample.engine [Sample.agnostic_file] []
  = (Returned {| _esmCount := 0; cjsCount := 0; unknowCount := 0 |}, [])
  /\ length (List.filter (@failed Sample.engine) [Sample.agnostic_file]) = 0%nat
  /\ ~ (0 + 0 + 0 = Z.of_nat (length [Sample.agnostic_file]) - 0)
  /\ ~ (forall (engine : TypeScript) deps tr c tr',
          @checkModuleFormat_loop engine deps tr = (Returned c, tr') ->
          _esmCount c + cjsCount c + unknowCount c = Z.of_nat (length deps)).
Proof.
  split; [reflexivity|]. split; [reflexivity|]. split; [simpl; lia|].
  intros Hclaim.
  specialize (Hclaim Sample.engine [Sample.agnostic_file] [] zeroCounts []
                     eq_refl).
  simpl in Hclaim. lia.
Qed.

(** ** The extension classifier *)

Lemma has_elem_of (xs : list string) (i : string) :
  has xs i = true <-> i ∈ xs.
Proof.
  unfold has. rewrite existsb_exists. split.
  - intros (x & Hx & Heq). apply String.eqb_eq in Heq. subst x.
    apply list_elem_of_In, Hx.
  - intros Hi. exists i. split; [apply list_elem_of_In, Hi|apply String.eqb_refl].
Qed.

Lemma every_has_Forall (exts xs : list string) :
  every exts (fun i => has xs i) = true <-> Forall (fun e => e ∈ xs) exts.
Proof.
  unfold every. rewrite forallb_forall, Forall_forall. split.
  - intros Hall e He. apply has_elem_of, Hall, list_elem_of_In, He.
  - intros Hall e He. apply has_elem_of, Hall, list_elem_of_In, He.
Qed.

Lemma every_has_false (exts xs : list string) :
  every exts (fun i => has xs i) = false <-> Exists (fun e => e ∉ xs) exts.
Proof.
  unfold every. induction exts as [|e exts IH]; cbn [forallb].
  - split; [discriminate|]. intros Hex. inversion Hex.
  - rewrite andb_false_iff, Exists_cons, IH, <- (has_elem_of xs e).
    destruct (has xs e); intuition congruence.
Qed.

Lemma every_has_one (exts : list string) (x : string) :
  every exts (fun i => has [x] i) = true <-> Forall (fun e => e = x) exts.
Proof.
  rewrite every_has_Forall. apply Forall_iff. intros e.
  rewrite list_elem_of_singleton. reflexivity.
Qed.

Lemma flag_iff_intro (r : JSObject) (k : string) (b : bool) (P : Prop) :
  r !! k = Some (JSBool b) -> (b = true <-> P) -> flag_iff r k P.
Proof.
  intros Hk HP. unfold flag_iff, is_true_in, is_false_in. rewrite Hk.
  split; split.
  - intros [= ->]. apply HP. reflexivity.
  - intros HPt. apply HP in HPt. subst b. reflexivity.
  - intros [= ->] HPt. apply HP in HPt. discriminate.
  - intros HnP. destruct b; [|reflexivity]. exfalso. apply HnP, HP.
    reflexivity.
Qed.

(** The six properties of the object [index.cts] returns. *)
Lemma checkExtGroup_lookup (deps : list DepsFile) :
  let exts := suffixes deps in
  let r := index_cts.checkExtGroup deps in
  r !! "isNone" = Some (JSBool (negb (every exts (fun i => has all_exts i))))
  /\ r !! "isJsx" = Some (JSBool (every exts (fun i => has jsx_exts i)))
  /\ r !! "isCjs"
     = Some (JSBool (every exts (fun i => has jscjs_exts i)
                     || every exts (fun i => has tscjs_exts i)))
  /\ r !! "isBoth"
     = Some (JSBool (every exts (fun i => has jsesm_exts i)
                     && every exts (fun i => has tsesm_exts i)))
  /\ r !! "isJs" = Some (JSBool (every exts (fun i => has jsesm_exts i)))
  /\ r !! "isTs" = Some (JSBool (every exts (fun i => has tsesm_exts i))).
Proof. repeat split. Qed.

(** No suffix is both a JavaScript-module and a TypeScript-module suffix. *)
Lemma jsesm_tsesm_disjoint (e : string) :
  has jsesm_exts e && has tsesm_exts e = false.
Proof.
  destruct (has jsesm_exts e) eqn:Hjs; [|reflexivity].
  apply has_elem_of in Hjs. unfold jsesm_exts in Hjs.
  apply list_elem_of_In in Hjs. simpl in Hjs.
  destruct Hjs as [<-|[<-|[]]]; reflexivity.
Qed.

(** C5: the flags are what their definitions say, for every batch, and
    on the four batches of the specification. *)
Theorem extension_flags_follow_their_definitions :
  (forall deps : list DepsFile,
      let exts := suffixes deps in
      let r := index_cts.checkExtGroup deps in
      flag_iff r "isCjs"
        (Forall (fun e => e = ".cjs") exts \/ Forall (fun e => e = ".cts") exts)
      /\ flag_iff r "isJs" (Forall (fun e => e ∈ [".js"; ".mjs"]) exts)
      /\ flag_iff r "isTs" (Forall (fun e => e ∈ [".ts"; ".mts"]) exts)
      /\ flag_iff r "isJsx" (Forall (fun e => e ∈ [".jsx"; ".tsx"]) exts)
      /\ flag_iff r "isNone"
           (Exists (fun e => e ∉ [".cjs"; ".js"; ".mjs"; ".cts"; ".ts";
                                  ".mts"; ".jsx"; ".tsx"]) exts))
  /\ (forall c1 c2,
         let r := index_cts.checkExtGroup
                    [ {| file := "a.ts"; content := c1 |};
                      {| file := "b.ts"; content := c2 |} ] in
         is_true_in r "isTs" /\ is_false_in r "isJs"
         /\ is_false_in r "isBoth" /\ is_false_in r "isNone")
  /\ (forall c1 c2,
         let r := index_cts.checkExtGroup
                    [ {| file := "a.js"; content := c1 |};
                      {| file := "b.ts"; content := c2 |} ] in
         is_false_in r "isJs" /\ is_false_in r "isTs"
         /\ is_false_in r "isBoth")
  /\ (forall c1,
         is_true_in
           (index_cts.checkExtGroup [ {| file := "a.cjs"; content := c1 |} ])
           "isCjs")
  /\ (forall c1,
         is_true_in
           (index_cts.checkExtGroup [ {| file := "a.txt"; content := c1 |} ])
           "isNone").
Proof.
  split; [|repeat split].
  intros deps exts r.
  destruct (checkExtGroup_lookup deps)
    as (HNone & HJsx & HCjs & HBoth & HJs & HTs).
  fold exts in HNone, HJsx, HCjs, HBoth, HJs, HTs.
  fold r in HNone, HJsx, HCjs, HBoth, HJs, HTs.
  refine (conj _ (conj _ (conj _ (conj _ _)))).
  - apply (flag_iff_intro _ _ _ _ HCjs).
    rewrite orb_true_iff. unfold jscjs_exts, tscjs_exts.
    rewrite !every_has_one. reflexivity.
  - apply (flag_iff_intro _ _ _ _ HJs). apply every_has_Forall.
  - apply (flag_iff_intro _ _ _ _ HTs). apply every_has_Forall.
  - apply (flag_iff_intro _ _ _ _ HJsx). apply every_has_Forall.
  - apply (flag_iff_intro _ _ _ _ HNone).
    rewrite negb_true_iff. apply every_has_false.
Qed.

(** C6: [isBoth] is the conjunction of [isJs] and [isTs], and it is
    [true] on the empty batch and on no other. *)
Theorem isBoth_only_on_the_empty_batch (deps : list DepsFile) :
  let r := index_cts.checkExtGroup deps in
  (exists b_js b_ts : bool,
      r !! "isJs" = Some (JSBool b_js)
      /\ r !! "isTs" = Some (JSBool b_ts)
      /\ r !! "isBoth" = Some (JSBool (b_js && b_ts)))
  /\ flag_iff r "isBoth" (deps = [])
  /\ (forall e : string, ~ (e ∈ [".js"; ".mjs"] /\ e ∈ [".ts"; ".mts"])).
Proof.
  intros r.
  destruct (checkExtGroup_lookup deps) as (_ & _ & _ & HBoth & HJs & HTs).
  fold r in HBoth, HJs, HTs.
  split; [eexists _, _; repeat split; eassumption|].
  split.
  - apply (flag_iff_intro _ _ _ _ HBoth).
    destruct deps as [|dep deps]; [split; reflexivity|].
    split; [|discriminate]. intros Hb. exfalso.
    unfold suffixes, every in Hb. cbn [map forallb] in Hb.
    pose proof (jsesm_tsesm_disjoint (path.extname (file dep))) as Hd.
    destruct (has jsesm_exts (path.extname (file dep))),
             (has tsesm_exts (path.extname (file dep)));
      simpl in Hb, Hd; try discriminate.
    rewrite andb_false_r in Hb. discriminate.
  - intros e [Hjs Hts].
    pose proof (jsesm_tsesm_disjoint e) as Hd.
    apply (has_elem_of jsesm_exts) in Hjs.
    apply (has_elem_of tsesm_exts) in Hts.
    rewrite Hjs, Hts in Hd. discriminate.
Qed.

(** ** The strict entry point *)

Lemma strict_checkExtGroup_run (deps : list DepsFile) (tr : list event) :
  index_ts.checkExtGroup deps tr
  = let exts := suffixes deps in
    if negb (every exts (fun i => has all_exts i)) then
      (Exited 1, tr ++ [console_warn index_ts.warn_isNone])
    else if every exts (fun i => has jscjs_exts i)
            || every exts (fun i => has tscjs_exts i) then
      (Exited 1, tr ++ [console_warn index_ts.warn_isCjs])
    else if every exts (fun i => has jsesm_exts i)
            && every exts (fun i => has tsesm_exts i) then
      (Exited 1, tr ++ [console_warn index_ts.warn_isBoth])
    else (Returned true, tr).
Proof.
  unfold index_ts.checkExtGroup. fold (suffixes deps). cbv zeta.
  destruct (negb (every (suffixes deps) (fun i => has all_exts i)));
    [reflexivity|].
  destruct (every (suffixes deps) (fun i => has jscjs_exts i)
            || every (suffixes deps) (fun i => has tscjs_exts i));
    [reflexivity|].
  destruct (every (suffixes deps) (fun i => has jsesm_exts i)
            && every (suffixes deps) (fun i => has tsesm_exts i));
    reflexivity.
Qed.

(** C7: the strict checks end the process with exit code 1 after one
    warning.  [checkExtGroup] does so when [isNone], [isCjs] or [isBoth]
    (the flags of the whole batch, as [index.cts] returns them) is set,
    and returns [true] otherwise; [checkModuleFormat] does so when the
    loop over the whole batch has left [unknowCount] or [cjsCount] above
    0, after everything the loop reported, and returns [true] otherwise. *)
Theorem strict_checks_exit_on_violation `{TypeScript}
    (deps : list DepsFile) (tr : list event) :
  (exists isNone isCjs isBoth : bool,
      index_cts.checkExtGroup deps !! "isNone" = Some (JSBool isNone)
      /\ index_cts.checkExtGroup deps !! "isCjs" = Some (JSBool isCjs)
      /\ index_cts.checkExtGroup deps !! "isBoth" = Some (JSBool isBoth)
      /\ index_ts.checkExtGroup deps tr
         = if isNone then
             (Exited 1, tr ++ [console_warn index_ts.warn_isNone])
           else if isCjs then
             (Exited 1, tr ++ [console_warn index_ts.warn_isCjs])
           else if isBoth then
             (Exited 1, tr ++ [console_warn index_ts.warn_isBoth])
           else (Returned true, tr))
  /\ (exists (c : Counts) (tr' : list event),
         checkModuleFormat_loop deps tr = (Returned c, tr')
         /\ tr' = tr ++ report_all deps
         /\ index_ts.checkModuleFormat deps tr
            = if 0 <? unknowCount c then
                (Exited 1, tr' ++ [console_warn index_ts.warn_unknowCount])
              else if 0 <? cjsCount c then
                (Exited 1, tr' ++ [console_warn index_ts.warn_cjsCount])
              else (Returned true, tr')).
Proof.
  split.
  - destruct (checkExtGroup_lookup deps) as (HNone & _ & HCjs & HBoth & _).
    eexists _, _, _.
    split; [exact HNone|]. split; [exact HCjs|]. split; [exact HBoth|].
    apply strict_checkExtGroup_run.
  - exists (tally_all deps zeroCounts), (tr ++ report_all deps).
    split; [apply loop_run|]. split; [reflexivity|].
    rewrite strict_run. cbv zeta.
    pose proof (tally_all_nonneg deps zeroCounts) as Hnn. simpl in Hnn.
    assert (Hu : negb (unknowCount (tally_all deps zeroCounts) =? 0)
                 = (0 <? unknowCount (tally_all deps zeroCounts))).
    { destruct (Z.eqb_spec (unknowCount (tally_all deps zeroCounts)) 0),
               (Z.ltb_spec 0 (unknowCount (tally_all deps zeroCounts)));
        simpl; try reflexivity; lia. }
    assert (Hc : negb (cjsCount (tally_all deps zeroCounts) =? 0)
                 = (0 <? cjsCount (tally_all deps zeroCounts))).
    { destruct (Z.eqb_spec (cjsCount (tally_all deps zeroCounts)) 0),
               (Z.ltb_spec 0 (cjsCount (tally_all deps zeroCounts)));
        simpl; try reflexivity; lia. }
    rewrite Hu, Hc. reflexivity.
Qed.

(** C10: on the empty batch the lenient classifier returns [isNone]
    [false] and the five other flags [true]; the strict one ends the
    process with the warning of the [isCjs] check (that of the [isBoth]
    check is not reached), and so does [fileExtensionAndFormat], before
    any file is analyzed. *)
Theorem empty_batch_is_rejected :
  index_cts.checkExtGroup []
  = {[ "isNone" := JSBool false;
       "isCjs" := JSBool true;
       "isJsx" := JSBool true;
       "isJs" := JSBool true;
       "isTs" := JSBool true;
       "isBoth" := JSBool true ]}
  /\ (forall tr,
         index_ts.checkExtGroup [] tr
         = (Exited 1, tr ++ [console_warn index_ts.warn_isCjs]))
  /\ (forall (engine : TypeScript) tr,
         @index_ts.fileExtensionAndFormat engine [] tr
         = (Exited 1,
            tr ++ [console_time "checked extension and module";
                   console_warn index_ts.warn_isCjs])).
Proof.
  assert (Hext : forall tr,
             index_ts.checkExtGroup [] tr
             = (Exited 1, tr ++ [console_warn index_ts.warn_isCjs])).
  { intros tr. rewrite strict_checkExtGroup_run. reflexivity. }
  split; [reflexivity|]. split; [exact Hext|].
  intros engine tr. unfold index_ts.fileExtensionAndFormat.
  rewrite (bind_returned _ _ _ _ _ (emit_run _ tr)).
  rewrite (bind_exited _ _ _ _ _ (Hext _)).
  rewrite <- app_assoc. reflexivity.
Qed.

(** ** The lenient entry point, end to end *)

Lemma checkTypes_noCheck `{TypeScript} (deps : list DepsFile) :
  checkTypes deps {| noCheck := Some true |} = mret None.
Proof. reflexivity. Qed.

(** C8: with [noCheck: true], and a parser that gives the tree of
    [export const a = 1;] for that text, [check] on the one file [x.ts]
    returns, without any event, the object with [isTs] [true], the five
    other flags [false] and the two counters 0 (the source spells the
    first counter [unknowCount]); the object has no property for the
    count of ESM files. *)
Theorem check_single_ts_file `{TypeScript} (tr : list event) :
  createSourceFile "x.ts" "export const a = 1;"
  = Ok Sample.export_const_a_tree ->
  exists r : JSObject,
    index_cts.check [ {| file := "x.ts"; content := "export const a = 1;" |} ]
                    {| noCheck := Some true |} tr
    = (Returned r, tr)
    /\ r = {[ "isTs" := JSBool true;
              "isJs" := JSBool false;
              "isBoth" := JSBool false;
              "isNone" := JSBool false;
              "isJsx" := JSBool false;
              "isCjs" := JSBool false;
              "unknowCount" := JSNumber 0;
              "cjsCount" := JSNumber 0 ]}
    /\ r !! "esmCount" = None
    /\ r !! "_esmCount" = None
    /\ dom r = {[ "isNone"; "isJsx"; "isCjs"; "isBoth"; "isJs"; "isTs";
                  "unknowCount"; "cjsCount" ]}.
Proof.
  intros Hparse.
  set (dep := {| file := "x.ts"; content := "export const a = 1;" |}).
  assert (Ht : traverse dep
               = Ok {| hasESMImports := true; hasCommonJS := false |}).
  { unfold traverse. cbn [dep file content]. rewrite Hparse. reflexivity. }
  assert (Hcm : index_cts.checkModuleFormat [dep] tr
                = (Returned {[ "unknowCount" := JSNumber 0;
                               "cjsCount" := JSNumber 0 ]}, tr)).
  { rewrite lenient_run. unfold tally_all, report_all. cbn [fold_left map concat].
    rewrite (tally_completed _ _ _ Ht), (report_completed _ _ Ht), app_nil_r.
    reflexivity. }
  eexists. split.
  - unfold index_cts.check. rewrite checkTypes_noCheck.
    erewrite bind_returned by reflexivity.
    rewrite (bind_returned _ _ _ _ _ Hcm). reflexivity.
  - repeat split; vm_compute; reflexivity.
Qed.

(** ** The theorems at the sample files *)

(** C1 at [import x from 'y'; const z = require('w');]. *)
Lemma mixed_file_counts_as_esm_witness :
  @traverse Sample.engine Sample.mixed_file
  = Ok {| hasESMImports := true; hasCommonJS := true |}
  /\ @checkModuleFormat_iteration Sample.engine Sample.mixed_file zeroCounts []
     = (Returned {| _esmCount := 1; cjsCount := 0; unknowCount := 0 |}, [])
  /\ @index_cts.checkModuleFormat Sample.engine [Sample.mixed_file] []
     = (Returned {[ "unknowCount" := JSNumber 0; "cjsCount" := JSNumber 0 ]},
        [])
  /\ @index_ts.checkModuleFormat Sample.engine [Sample.mixed_file] []
     = (Returned true, []).
Proof.
  destruct (@mixed_file_counts_as_esm Sample.engine Sample.mixed_file
              {| hasESMImports := true; hasCommonJS := true |})
    as (Hiter & _ & Hlenient & Hstrict); try reflexivity.
  split; [reflexivity|].
  split; [exact (Hiter zeroCounts [])|].
  split; [exact (Hlenient [])|exact (Hstrict [])].
Defined.

(** C3 at [const a = 1;]. *)
Lemma agnostic_file_counts_nowhere_witness :
  @traverse Sample.engine Sample.agnostic_file
  = Ok {| hasESMImports := false; hasCommonJS := false |}
  /\ @checkModuleFormat_iteration Sample.engine Sample.agnostic_file
       zeroCounts []
     = (Returned zeroCounts, [])
  /\ @checkModuleFormat_loop Sample.engine
       [Sample.esm_file; Sample.agnostic_file; Sample.cjs_file] []
     = @checkModuleFormat_loop Sample.engine
         [Sample.esm_file; Sample.cjs_file] [].
Proof.
  destruct (@agnostic_file_counts_nowhere Sample.engine Sample.agnostic_file
              {| hasESMImports := false; hasCommonJS := false |})
    as (Hiter & Hloop & _); try reflexivity.
  split; [reflexivity|].
  split; [exact (Hiter zeroCounts [])|].
  exact (Hloop [Sample.esm_file] [Sample.cjs_file] []).
Defined.


(** C8 with the sample engine. *)
Lemma check_single_ts_file_witness :
  @createSourceFile Sample.engine "x.ts" "export const a = 1;"
  = Ok Sample.export_const_a_tree
  /\ exists r : JSObject,
      @index_cts.check Sample.engine
        [ {| file := "x.ts"; content := "export const a = 1;" |} ]
        {| noCheck := Some true |} []
      = (Returned r, [])
      /\ r !! "isTs" = Some (JSBool true)
      /\ r !! "unknowCount" = Some (JSNumber 0)
      /\ r !! "cjsCount" = Some (JSNumber 0)
      /\ r !! "esmCount" = None.
Proof.
  split; [reflexivity|].
  destruct (@check_single_ts_file Sample.engine [] eq_refl)
    as (r & Hrun & Hr & Hesm & _).
  exists r. split; [exact Hrun|].
  rewrite Hr. repeat split.
Defined.


(** * Further properties of the code *)

(** ** The traversal *)

(** Induction on a syntax tree, with the property for every child. *)
Lemma Node_children_ind (P : ts.Node -> Prop) :
  (forall node, Forall P (ts.children node) -> P node) ->
  forall node, P node.
Proof.
  intros step. fix rec 1. intros [k m e a t g cs]. apply step. simpl.
  induction cs as [|c cs IH]; constructor; [apply rec|apply IH].
Qed.

Lemma forEachChild_walk (node : ts.Node) (st : Flags) :
  ts.forEachChild node walk st = walk_children (ts.children node) st.
Proof.
  unfold ts.forEachChild. revert st.
  induction (ts.children node) as [|c cs IH]; intros st; [reflexivity|].
  cbn [walk_children]. destruct (walk c st) as [st'|e]; [apply IH|reflexivity].
Qed.

(** [walk] at a node: the throw on a call without a callee, else the
    markers of the node are added and the children are walked. *)
Lemma walk_node (node : ts.Node) (st : Flags) :
  walk node st
  = if call_without_callee node then Throw TypeError_kind_of_undefined
    else walk_children (ts.children node) (or_flags st (markers [node])).
Proof.
  rewrite <- forEachChild_walk.
  destruct node as [k m e a t g cs].
  unfold call_without_callee, markers, or_flags, esm_marker, cjs_marker.
  cbn [existsb]. rewrite !orb_false_r.
  destruct st as [esm cjs].
  destruct k; destruct e as [callee|]; cbn;
    repeat match goal with
           | |- context [match ?m with Some _ => _ | None => _ end] =>
             destruct m
           | |- context [if ?b then _ else _] => destruct b
           end; cbn; rewrite ?orb_false_r, ?orb_true_r; reflexivity.
Qed.

Lemma Flags_eq (a b : Flags) :
  hasESMImports a = hasESMImports b -> hasCommonJS a = hasCommonJS b -> a = b.
Proof. destruct a, b; simpl; congruence. Qed.

Lemma or_flags_assoc (a b c : Flags) :
  or_flags (or_flags a b) c = or_flags a (or_flags b c).
Proof. apply Flags_eq; simpl; apply eq_sym, orb_assoc. Qed.

Lemma or_flags_noFlags_l (a : Flags) : or_flags noFlags a = a.
Proof. apply Flags_eq; reflexivity. Qed.

Lemma markers_app (xs ys : list ts.Node) :
  markers (xs ++ ys) = or_flags (markers xs) (markers ys).
Proof. apply Flags_eq; simpl; apply existsb_app. Qed.

Lemma nodes_node (node : ts.Node) :
  nodes node = node :: flat_map nodes (ts.children node).
Proof. destruct node; reflexivity. Qed.

Lemma walk_children_nodes (cs : list ts.Node) :
  Forall (fun c => forall st,
              walk c st
              = if existsb call_without_callee (nodes c)
                then Throw TypeError_kind_of_undefined
                else Ok (or_flags st (markers (nodes c)))) cs ->
  forall st,
    walk_children cs st
    = if existsb call_without_callee (flat_map nodes cs)
      then Throw TypeError_kind_of_undefined
      else Ok (or_flags st (markers (flat_map nodes cs))).
Proof.
  induction 1 as [|c cs Hc _ IH]; intros st.
  - cbn. f_equal. apply Flags_eq; simpl; symmetry; apply orb_false_r.
  - cbn [walk_children flat_map]. rewrite Hc, existsb_app.
    destruct (existsb call_without_callee (nodes c)); [reflexivity|].
    rewrite IH. cbn [orb].
    destruct (existsb call_without_callee (flat_map nodes cs));
      [reflexivity|].
    rewrite or_flags_assoc, <- markers_app. reflexivity.
Qed.

Lemma walk_nodes (root : ts.Node) (st : Flags) :
  walk root st
  = if existsb call_without_callee (nodes root)
    then Throw TypeError_kind_of_undefined
    else Ok (or_flags st (markers (nodes root))).
Proof.
  revert st. induction root as [node IH] using Node_children_ind.
  intros st. rewrite walk_node.
  rewrite (nodes_node node). cbn [existsb].
  destruct (call_without_callee node); [reflexivity|].
  rewrite (walk_children_nodes _ IH). cbn [orb].
  destruct (existsb call_without_callee (flat_map nodes (ts.children node)));
    [reflexivity|].
  rewrite or_flags_assoc, <- markers_app. reflexivity.
Qed.

(** X1: [walk] visits every node of the tree.  It throws the TypeError
    when some node of the tree is a call expression without a callee;
    otherwise it returns the flags it was given with [hasESMImports] set
    when some node of the tree is an ESM marker and [hasCommonJS] set
    when some node is a CommonJS marker. *)
Theorem walk_visits_every_node (root : ts.Node) (st : Flags) :
  walk root st
  = if existsb call_without_callee (nodes root)
    then Throw TypeError_kind_of_undefined
    else Ok {| hasESMImports :=
                 hasESMImports st || existsb esm_marker (nodes root);
               hasCommonJS :=
                 hasCommonJS st || existsb cjs_marker (nodes root) |}.
Proof. apply walk_nodes. Qed.

(** X2: the markers are only ever set: the result of [walk] from the
    flags [st] is the result from both flags [false] with the markers of
    [st] added, and [walk] throws from [st] exactly when it throws from
    both flags [false]. *)
Theorem walk_only_sets_markers (root : ts.Node) (st : Flags) :
  walk root st
  = match walk root noFlags with
    | Ok f => Ok {| hasESMImports := hasESMImports st || hasESMImports f;
                    hasCommonJS := hasCommonJS st || hasCommonJS f |}
    | Throw e => Throw e
    end.
Proof.
  rewrite (walk_nodes root st), (walk_nodes root noFlags).
  destruct (existsb call_without_callee (nodes root)); reflexivity.
Qed.

(** ** The counters of a batch *)

Lemma how_many_cons {A} (p : A -> bool) (x : A) (xs : list A) :
  how_many p (x :: xs) = (if p x then 1 else 0) + how_many p xs.
Proof.
  unfold how_many. cbn [List.filter]. destruct (p x); cbn [length]; lia.
Qed.

Lemma how_many_nonneg {A} (p : A -> bool) (xs : list A) : 0 <= how_many p xs.
Proof. unfold how_many. lia. Qed.

Lemma how_many_zero {A} (p : A -> bool) (xs : list A) :
  how_many p xs = 0 <-> Forall (fun x => p x = false) xs.
Proof.
  induction xs as [|x xs IH]; [split; [constructor|reflexivity]|].
  rewrite how_many_cons, Forall_cons.
  pose proof (how_many_nonneg p xs).
  destruct (p x); split.
  - lia.
  - intros [[=] _].
  - intros Hz. split; [reflexivity|]. apply IH. lia.
  - intros [_ Hxs]. apply IH in Hxs. lia.
Qed.

Lemma how_many_all {A} (p : A -> bool) (xs : list A) :
  Forall (fun x => p x = true) xs -> how_many p xs = Z.of_nat (length xs).
Proof.
  induction 1 as [|x xs Hx _ IH]; [reflexivity|].
  rewrite how_many_cons, Hx, IH. cbn [length]. lia.
Qed.

Section Counting.
Context `{TypeScript}.

Lemma tally_counts dep :
  tally dep zeroCounts
  = {| _esmCount := if counted_esm dep then 1 else 0;
       cjsCount := if counted_cjs dep then 1 else 0;
       unknowCount := if failed dep then 1 else 0 |}.
Proof.
  unfold tally, counted_esm, counted_cjs, failed, count_format.
  destruct (traverse dep) as [f|e]; [|reflexivity].
  destruct (hasESMImports f), (hasCommonJS f); reflexivity.
Qed.

Lemma tally_all_counts deps :
  tally_all deps zeroCounts
  = {| _esmCount := how_many counted_esm deps;
       cjsCount := how_many counted_cjs deps;
       unknowCount := how_many failed deps |}.
Proof.
  induction deps as [|dep deps IH]; [reflexivity|].
  change (tally_all (dep :: deps) zeroCounts)
    with (tally_all deps (tally dep zeroCounts)).
  rewrite tally_all_plus, IH, tally_counts, !how_many_cons.
  apply Counts_eq; reflexivity.
Qed.

Lemma report_all_none deps :
  Forall (fun dep => failed dep = false) deps -> report_all deps = [].
Proof.
  induction 1 as [|dep deps Hdep _ IH]; [reflexivity|].
  unfold report_all in *. cbn [map concat]. rewrite IH, app_nil_r.
  unfold failed in Hdep. unfold report.
  destruct (traverse dep); [reflexivity|discriminate].
Qed.

(** X3: after the loop, [_esmCount] is the number of files whose
    traversal ended with the ESM marker set, [cjsCount] the number of
    files that ended with the CommonJS marker alone, [unknowCount] the
    number of files whose [try] block threw; the loop reports the failed
    files, in the order of the batch, and nothing else. *)
Theorem counters_count_verdicts (deps : list DepsFile) (tr : list event) :
  checkModuleFormat_loop deps tr
  = (Returned {| _esmCount := how_many counted_esm deps;
                 cjsCount := how_many counted_cjs deps;
                 unknowCount := how_many failed deps |},
     tr ++ concat (map report (List.filter failed deps))).
Proof.
  rewrite loop_run, tally_all_counts. do 2 f_equal.
  unfold report_all. induction deps as [|dep deps IH]; [reflexivity|].
  cbn [map concat List.filter]. rewrite IH.
  destruct (failed dep) eqn:Hf; [reflexivity|].
  unfold failed in Hf. unfold report at 1.
  destruct (traverse dep); [reflexivity|discriminate].
Qed.

(** X4: the counters do not depend on the order of the files: two
    batches that are permutations of each other get the same counters,
    and the same reports up to order. *)
Theorem counters_ignore_file_order (deps deps' : list DepsFile)
    (tr : list event) :
  deps ≡ₚ deps' ->
  exists c tr1 tr2,
    checkModuleFormat_loop deps tr = (Returned c, tr1)
    /\ checkModuleFormat_loop deps' tr = (Returned c, tr2)
    /\ tr1 ≡ₚ tr2
    /\ fst (index_cts.checkModuleFormat deps tr)
       = fst (index_cts.checkModuleFormat deps' tr)
    /\ fst (index_ts.checkModuleFormat deps tr)
       = fst (index_ts.checkModuleFormat deps' tr).
Proof.
  intros Hperm.
  assert (Hc : tally_all deps zeroCounts = tally_all deps' zeroCounts).
  { generalize zeroCounts.
    induction Hperm as [|x l l' _ IH|x y l|l l' l'' _ IH1 _ IH2]; intros c.
    - reflexivity.
    - apply (IH (tally x c)).
    - unfold tally_all. cbn [fold_left]. f_equal.
      rewrite (tally_plus x (tally y c)), (tally_plus y (tally x c)),
              (tally_plus y c), (tally_plus x c).
      apply plus_counts_swap.
    - rewrite IH1. apply IH2. }
  assert (Hr : report_all deps ≡ₚ report_all deps').
  { clear Hc. unfold report_all.
    induction Hperm as [|x l l' _ IH|x y l|l l' l'' _ IH1 _ IH2].
    - reflexivity.
    - cbn [map concat]. rewrite IH. reflexivity.
    - cbn [map concat]. rewrite !app_assoc.
      rewrite (Permutation_app_comm (report y) (report x)). reflexivity.
    - etransitivity; eassumption. }
  exists (tally_all deps zeroCounts), (tr ++ report_all deps),
         (tr ++ report_all deps').
  split; [apply loop_run|].
  split; [rewrite Hc; apply loop_run|].
  split; [rewrite Hr; reflexivity|].
  split.
  - rewrite !lenient_run, Hc. reflexivity.
  - rewrite !strict_run, Hc. cbv zeta.
    destruct (negb (unknowCount (tally_all deps' zeroCounts) =? 0));
      [reflexivity|].
    destruct (negb (cjsCount (tally_all deps' zeroCounts) =? 0)); reflexivity.
Qed.

(** X5: analysing a batch in two parts, one after the other, gives the
    counters of the parts added up and the traces one after the other:
    that is what analysing the whole batch gives. *)
Theorem counters_of_a_split_batch (deps1 deps2 : list DepsFile)
    (tr : list event) :
  exists c1 c2 tr1 tr2,
    checkModuleFormat_loop deps1 tr = (Returned c1, tr1)
    /\ checkModuleFormat_loop deps2 tr1 = (Returned c2, tr2)
    /\ checkModuleFormat_loop (deps1 ++ deps2) tr
       = (Returned {| _esmCount := _esmCount c1 + _esmCount c2;
                      cjsCount := cjsCount c1 + cjsCount c2;
                      unknowCount := unknowCount c1 + unknowCount c2 |},
          tr2).
Proof.
  eexists _, _, _, _.
  split; [apply loop_run|]. split; [apply loop_run|].
  rewrite loop_run, tally_all_app, tally_all_plus, report_all_app, app_assoc.
  reflexivity.
Qed.

End Counting.

Section Batches.
Context `{TypeScript}.

Lemma traverse_tree (dep : DepsFile) (tree : ts.Node) :
  createSourceFile (file dep) (content dep) = Ok tree ->
  traverse dep
  = if existsb call_without_callee (nodes tree)
    then Throw TypeError_kind_of_undefined
    else Ok (markers (nodes tree)).
Proof.
  unfold traverse. intros ->. rewrite walk_nodes, or_flags_noFlags_l.
  reflexivity.
Qed.

(** The strict module-format check either returns [true], with no
    event, on a batch without failed and without CommonJS-only files, or
    exits after the reports of the loop and one warning. *)
Lemma strict_module_cases (deps : list DepsFile) (tr : list event) :
  (index_ts.checkModuleFormat deps tr = (Returned true, tr)
   /\ Forall (fun dep => failed dep = false /\ counted_cjs dep = false) deps)
  \/ (exists msg,
         index_ts.checkModuleFormat deps tr
         = (Exited 1, tr ++ report_all deps ++ [console_warn msg]))
     /\ ~ Forall (fun dep => failed dep = false /\ counted_cjs dep = false)
          deps.
Proof.
  rewrite strict_run, tally_all_counts. cbv zeta.
  cbn [_esmCount cjsCount unknowCount].
  rewrite Forall_and, <- !how_many_zero.
  destruct (Z.eqb_spec (how_many failed deps) 0) as [Hu|Hu]; cbn [negb].
  - assert (Hrep : report_all deps = []).
    { apply report_all_none, how_many_zero, Hu. }
    rewrite Hrep, app_nil_r.
    destruct (Z.eqb_spec (how_many counted_cjs deps) 0) as [Hc|Hc]; cbn [negb].
    + left. auto.
    + right. split; [eexists; reflexivity|]. intros [_ Hz]. contradiction.
  - right. split; [eexists; rewrite <- app_assoc; reflexivity|].
    intros [Hz _]. contradiction.
Qed.

(** X6: the strict [checkModuleFormat] returns [true], with no event,
    exactly when no file of the batch failed and no file ended with the
    CommonJS marker alone; in every other case the process exits with
    code 1 after the reports of the loop and one warning.  It never
    returns [false] and never throws. *)
Theorem strict_module_check_passes_iff (deps : list DepsFile)
    (tr : list event) :
  (index_ts.checkModuleFormat deps tr = (Returned true, tr)
   <-> Forall (fun dep => failed dep = false /\ counted_cjs dep = false) deps)
  /\ (index_ts.checkModuleFormat deps tr = (Returned true, tr)
      \/ exists msg,
          index_ts.checkModuleFormat deps tr
          = (Exited 1, tr ++ report_all deps ++ [console_warn msg])).
Proof.
  destruct (strict_module_cases deps tr) as [[Hrun Hok]|[[msg Hrun] Hok]].
  - split; [split; [intros _; exact Hok|intros _; exact Hrun]|].
    left. exact Hrun.
  - split; [|right; exists msg; exact Hrun].
    split; [|intros Ha; contradiction].
    rewrite Hrun. discriminate.
Qed.

(** X7: when every file of the batch parses to a tree in which some node
    is an ESM marker (and no call lacks its callee), [_esmCount] is the
    size of the batch and the two other counters are 0, whatever
    CommonJS markers the files also have; nothing is reported and the
    strict check returns [true]. *)
Theorem esm_batch_is_all_esm (deps : list DepsFile) (tr : list event) :
  Forall (fun dep => exists tree,
              createSourceFile (file dep) (content dep) = Ok tree
              /\ existsb call_without_callee (nodes tree) = false
              /\ existsb esm_marker (nodes tree) = true) deps ->
  checkModuleFormat_loop deps tr
  = (Returned {| _esmCount := Z.of_nat (length deps);
                 cjsCount := 0; unknowCount := 0 |}, tr)
  /\ index_ts.checkModuleFormat deps tr = (Returned true, tr)
  /\ index_cts.checkModuleFormat deps tr
     = (Returned {[ "unknowCount" := JSNumber 0; "cjsCount" := JSNumber 0 ]},
        tr).
Proof.
  intros Hall.
  assert (Hesm : Forall (fun dep => counted_esm dep = true) deps
                 /\ Forall (fun dep => counted_cjs dep = false) deps
                 /\ Forall (fun dep => failed dep = false) deps).
  { rewrite <- !Forall_and. eapply Forall_impl; [exact Hall|].
    intros dep (tree & Hparse & Hwf & Hm). cbn beta.
    unfold counted_esm, counted_cjs, failed.
    rewrite (traverse_tree _ _ Hparse), Hwf. cbn. rewrite Hm.
    rewrite andb_false_r. auto. }
  destruct Hesm as (He & Hc & Hf).
  assert (Hcounts : tally_all deps zeroCounts
                    = {| _esmCount := Z.of_nat (length deps);
                         cjsCount := 0; unknowCount := 0 |}).
  { rewrite tally_all_counts, (how_many_all _ _ He).
    apply how_many_zero in Hc, Hf. rewrite Hc, Hf. reflexivity. }
  pose proof (report_all_none _ Hf) as Hrep.
  split; [|split].
  - rewrite loop_run, Hcounts, Hrep, app_nil_r. reflexivity.
  - rewrite strict_run, Hcounts, Hrep, app_nil_r. reflexivity.
  - rewrite lenient_run, Hcounts, Hrep, app_nil_r. reflexivity.
Qed.

(** X8: when every file of the batch parses to a tree in which some node
    is a CommonJS marker and no node is an ESM marker (and no call lacks
    its callee), [cjsCount] is the size of the batch and the two other
    counters are 0; if the batch is not empty the strict check ends the
    process with the CommonJS warning. *)
Theorem cjs_batch_is_all_cjs (deps : list DepsFile) (tr : list event) :
  Forall (fun dep => exists tree,
              createSourceFile (file dep) (content dep) = Ok tree
              /\ existsb call_without_callee (nodes tree) = false
              /\ existsb cjs_marker (nodes tree) = true
              /\ existsb esm_marker (nodes tree) = false) deps ->
  checkModuleFormat_loop deps tr
  = (Returned {| _esmCount := 0;
                 cjsCount := Z.of_nat (length deps); unknowCount := 0 |}, tr)
  /\ (deps <> [] ->
      index_ts.checkModuleFormat deps tr
      = (Exited 1, tr ++ [console_warn index_ts.warn_cjsCount])).
Proof.
  intros Hall.
  assert (Hcjs : Forall (fun dep => counted_cjs dep = true) deps
                 /\ Forall (fun dep => counted_esm dep = false) deps
                 /\ Forall (fun dep => failed dep = false) deps).
  { rewrite <- !Forall_and. eapply Forall_impl; [exact Hall|].
    intros dep (tree & Hparse & Hwf & Hm & He). cbn beta.
    unfold counted_esm, counted_cjs, failed.
    rewrite (traverse_tree _ _ Hparse), Hwf. cbn. rewrite Hm, He. auto. }
  destruct Hcjs as (Hc & He & Hf).
  assert (Hcounts : tally_all deps zeroCounts
                    = {| _esmCount := 0;
                         cjsCount := Z.of_nat (length deps);
                         unknowCount := 0 |}).
  { rewrite tally_all_counts, (how_many_all _ _ Hc).
    apply how_many_zero in He, Hf. rewrite He, Hf. reflexivity. }
  pose proof (report_all_none _ Hf) as Hrep.
  split.
  - rewrite loop_run, Hcounts, Hrep, app_nil_r. reflexivity.
  - intros Hne. rewrite strict_run, Hcounts, Hrep, app_nil_r. cbv zeta.
    cbn [unknowCount cjsCount]. cbn [Z.eqb negb].
    destruct deps as [|dep deps]; [contradiction|]. reflexivity.
Qed.

End Batches.

(** ** The extension checks *)

(** A suffix is in exactly one of the five groups when it is a
    recognized one, and in none otherwise. *)
Lemma suffix_groups (e : string) :
  Z.b2z (has jscjs_exts e) + Z.b2z (has tscjs_exts e)
  + Z.b2z (has jsesm_exts e) + Z.b2z (has tsesm_exts e)
  + Z.b2z (has jsx_exts e)
  = Z.b2z (has all_exts e).
Proof.
  unfold all_exts.
  unfold has, jscjs_exts, tscjs_exts, jsesm_exts, tsesm_exts, jsx_exts.
  cbn [existsb app].
  destruct (String.eqb_spec e ".cjs") as [->|_]; [reflexivity|].
  destruct (String.eqb_spec e ".js") as [->|_]; [reflexivity|].
  destruct (String.eqb_spec e ".mjs") as [->|_]; [reflexivity|].
  destruct (String.eqb_spec e ".cts") as [->|_]; [reflexivity|].
  destruct (String.eqb_spec e ".ts") as [->|_]; [reflexivity|].
  destruct (String.eqb_spec e ".mts") as [->|_]; [reflexivity|].
  destruct (String.eqb_spec e ".jsx") as [->|_]; [reflexivity|].
  destruct (String.eqb_spec e ".tsx") as [->|_]; reflexivity.
Qed.

Lemma isBoth_nil (exts : list string) :
  every exts (fun i => has jsesm_exts i)
  && every exts (fun i => has tsesm_exts i) = true ->
  exts = [].
Proof.
  destruct exts as [|e exts]; [reflexivity|].
  unfold every. cbn [forallb]. intros Hb.
  pose proof (jsesm_tsesm_disjoint e) as Hd.
  destruct (has jsesm_exts e), (has tsesm_exts e);
    simpl in Hb, Hd; try discriminate.
  rewrite andb_false_r in Hb. discriminate.
Qed.

(** The strict extension check either returns [true] on an accepted
    batch or exits after one warning on a batch that is not accepted. *)
Lemma strict_ext_cases (deps : list DepsFile) (tr : list event) :
  (index_ts.checkExtGroup deps tr = (Returned true, tr)
   /\ accepted (suffixes deps))
  \/ (exists msg,
         index_ts.checkExtGroup deps tr
         = (Exited 1, tr ++ [console_warn msg]))
     /\ ~ accepted (suffixes deps).
Proof.
  rewrite strict_checkExtGroup_run. cbv zeta. unfold accepted.
  destruct (every (suffixes deps) (fun i => has all_exts i)) eqn:Hall;
    cbn [negb].
  2:{ right. split; [eexists; reflexivity|]. intros (Hrec & _).
      apply (every_has_Forall _ all_exts) in Hrec. congruence. }
  destruct (every (suffixes deps) (fun i => has jscjs_exts i)) eqn:Hjs;
    cbn [orb].
  { right. split; [eexists; reflexivity|]. intros (_ & Hn & _).
    apply Hn, every_has_one, Hjs. }
  destruct (every (suffixes deps) (fun i => has tscjs_exts i)) eqn:Hts.
  { right. split; [eexists; reflexivity|]. intros (_ & _ & Hn).
    apply Hn, every_has_one, Hts. }
  destruct (every (suffixes deps) (fun i => has jsesm_exts i)
            && every (suffixes deps) (fun i => has tsesm_exts i)) eqn:Hboth.
  { apply isBoth_nil in Hboth. rewrite Hboth in Hjs. discriminate. }
  left. split; [reflexivity|].
  split; [apply (every_has_Forall _ all_exts), Hall|].
  split; intros Hn.
  - apply every_has_one in Hn. unfold jscjs_exts in Hjs. congruence.
  - apply every_has_one in Hn. unfold tscjs_exts in Hts. congruence.
Qed.

(** X9: the strict [checkExtGroup] returns [true], with no event,
    exactly when every suffix of the batch is a recognized one and the
    suffixes are neither all [.cjs] nor all [.cts]; otherwise the
    process exits with code 1 after one warning.  It never returns
    [false]. *)
Theorem strict_extension_check_passes_iff (deps : list DepsFile)
    (tr : list event) :
  (index_ts.checkExtGroup deps tr = (Returned true, tr)
   <-> Forall (fun e => e ∈ [".cjs"; ".js"; ".mjs"; ".cts"; ".ts"; ".mts";
                             ".jsx"; ".tsx"]) (suffixes deps)
       /\ ~ Forall (fun e => e = ".cjs") (suffixes deps)
       /\ ~ Forall (fun e => e = ".cts") (suffixes deps))
  /\ (index_ts.checkExtGroup deps tr = (Returned true, tr)
      \/ exists msg,
          index_ts.checkExtGroup deps tr
          = (Exited 1, tr ++ [console_warn msg])).
Proof.
  destruct (strict_ext_cases deps tr) as [[Hrun Hacc]|[[msg Hrun] Hacc]].
  - split; [split; [intros _; exact Hacc|intros _; exact Hrun]|].
    left. exact Hrun.
  - split; [|right; exists msg; exact Hrun].
    split; [|intros Ha; contradiction].
    rewrite Hrun. discriminate.
Qed.

(** X10: a batch of recognized suffixes with two different suffixes in
    it passes the strict extension check: a mix of JavaScript and
    TypeScript files, and a batch with [.cjs] or [.cts] files beside
    other files, are let through. *)
Theorem strict_extension_check_accepts_mixed (deps : list DepsFile)
    (e1 e2 : string) (tr : list event) :
  Forall (fun e => e ∈ [".cjs"; ".js"; ".mjs"; ".cts"; ".ts"; ".mts";
                        ".jsx"; ".tsx"]) (suffixes deps) ->
  e1 ∈ suffixes deps -> e2 ∈ suffixes deps -> e1 <> e2 ->
  index_ts.checkExtGroup deps tr = (Returned true, tr).
Proof.
  intros Hrec H1 H2 Hne.
  destruct (strict_ext_cases deps tr) as [[Hrun _]|[_ Hacc]]; [exact Hrun|].
  exfalso. apply Hacc. split; [exact Hrec|].
  split; intros Hall; rewrite Forall_forall in Hall;
    apply Hne; rewrite (Hall _ H1), (Hall _ H2); reflexivity.
Qed.

Lemma is_true_in_lookup (r : JSObject) (k : string) (b : bool) :
  r !! k = Some (JSBool b) -> (is_true_in r k <-> b = true).
Proof.
  intros Hk. unfold is_true_in. rewrite Hk.
  split; [intros [= ->]; reflexivity|intros ->; reflexivity].
Qed.

Lemma every_app {A} (xs ys : list A) (p : A -> bool) :
  every (xs ++ ys) p = every xs p && every ys p.
Proof. apply forallb_app. Qed.

Lemma suffixes_app (deps1 deps2 : list DepsFile) :
  suffixes (deps1 ++ deps2) = suffixes deps1 ++ suffixes deps2.
Proof. apply map_app. Qed.

Lemma group_recognized (e : string) :
  has jscjs_exts e || has tscjs_exts e || has jsesm_exts e
  || has tsesm_exts e || has jsx_exts e = has all_exts e.
Proof.
  pose proof (suffix_groups e) as Hg.
  destruct (has jscjs_exts e), (has tscjs_exts e), (has jsesm_exts e),
           (has tsesm_exts e), (has jsx_exts e), (has all_exts e);
    cbn in Hg; try lia; reflexivity.
Qed.

(** A batch that is homogeneous in one group has recognized suffixes
    only. *)
Lemma homogeneous_recognized (exts : list string) :
  every exts (fun i => has jscjs_exts i)
  || every exts (fun i => has tscjs_exts i)
  || every exts (fun i => has jsesm_exts i)
  || every exts (fun i => has tsesm_exts i)
  || every exts (fun i => has jsx_exts i) = true ->
  every exts (fun i => has all_exts i) = true.
Proof.
  unfold every. rewrite !orb_true_iff, !forallb_forall.
  intros Hhom e He. rewrite <- group_recognized.
  destruct Hhom as [[[[Hh|Hh]|Hh]|Hh]|Hh]; rewrite (Hh e He);
    rewrite ?orb_true_r; reflexivity.
Qed.

(** X11: on a batch that is not empty, at most one of [isCjs], [isJs],
    [isTs] and [isJsx] is [true], [isBoth] is [false], and when [isNone]
    is [true] the four are all [false]. *)
Theorem homogeneity_flags_exclude_each_other (deps : list DepsFile) :
  deps <> [] ->
  exists bNone bCjs bJs bTs bJsx : bool,
    index_cts.checkExtGroup deps !! "isNone" = Some (JSBool bNone)
    /\ index_cts.checkExtGroup deps !! "isCjs" = Some (JSBool bCjs)
    /\ index_cts.checkExtGroup deps !! "isJs" = Some (JSBool bJs)
    /\ index_cts.checkExtGroup deps !! "isTs" = Some (JSBool bTs)
    /\ index_cts.checkExtGroup deps !! "isJsx" = Some (JSBool bJsx)
    /\ index_cts.checkExtGroup deps !! "isBoth" = Some (JSBool false)
    /\ Z.b2z bCjs + Z.b2z bJs + Z.b2z bTs + Z.b2z bJsx <= 1
    /\ (bNone = true ->
        bCjs = false /\ bJs = false /\ bTs = false /\ bJsx = false).
Proof.
  intros Hne.
  destruct (checkExtGroup_lookup deps)
    as (HNone & HJsx & HCjs & HBoth & HJs & HTs).
  eexists _, _, _, _, _.
  split; [exact HNone|]. split; [exact HCjs|]. split; [exact HJs|].
  split; [exact HTs|]. split; [exact HJsx|].
  split; [|split].
  - rewrite HBoth.
    destruct (every (suffixes deps) (fun i => has jsesm_exts i)
              && every (suffixes deps) (fun i => has tsesm_exts i)) eqn:Hb;
      [|reflexivity].
    apply isBoth_nil in Hb. destruct deps; [contradiction|discriminate].
  - destruct deps as [|dep deps]; [contradiction|].
    change (suffixes (dep :: deps))
      with (path.extname (file dep) :: suffixes deps).
    unfold every. cbn [forallb].
    pose proof (suffix_groups (path.extname (file dep))) as Hg.
    destruct (has jscjs_exts (path.extname (file dep))),
             (has tscjs_exts (path.extname (file dep))),
             (has jsesm_exts (path.extname (file dep))),
             (has tsesm_exts (path.extname (file dep))),
             (has jsx_exts (path.extname (file dep))),
             (has all_exts (path.extname (file dep)));
      cbn in Hg; try lia; cbn [andb orb];
      repeat match goal with
             | |- context [forallb ?p ?l] => destruct (forallb p l)
             end; cbn; lia.
  - rewrite negb_true_iff. intros Hnone.
    pose proof (homogeneous_recognized (suffixes deps)) as Hhom.
    rewrite Hnone in Hhom.
    destruct (every (suffixes deps) (fun i => has jscjs_exts i)),
             (every (suffixes deps) (fun i => has tscjs_exts i)),
             (every (suffixes deps) (fun i => has jsesm_exts i)),
             (every (suffixes deps) (fun i => has tsesm_exts i)),
             (every (suffixes deps) (fun i => has jsx_exts i));
      cbn in Hhom |- *; try (specialize (Hhom eq_refl); discriminate);
      auto.
Qed.

(** X12: the flags of two batches put together.  [isJs], [isTs] and
    [isJsx] are [true] exactly when they are for both parts, [isNone]
    when it is for one of them; [isCjs] is [true] only if it is for both
    parts, but not whenever it is: a [.cjs] batch and a [.cts] batch
    together are not [isCjs]. *)
Theorem flags_of_joined_batches :
  (forall deps1 deps2 : list DepsFile,
      let r := index_cts.checkExtGroup (deps1 ++ deps2) in
      let r1 := index_cts.checkExtGroup deps1 in
      let r2 := index_cts.checkExtGroup deps2 in
      (is_true_in r "isJs" <-> is_true_in r1 "isJs" /\ is_true_in r2 "isJs")
      /\ (is_true_in r "isTs"
          <-> is_true_in r1 "isTs" /\ is_true_in r2 "isTs")
      /\ (is_true_in r "isJsx"
          <-> is_true_in r1 "isJsx" /\ is_true_in r2 "isJsx")
      /\ (is_true_in r "isNone"
          <-> is_true_in r1 "isNone" \/ is_true_in r2 "isNone")
      /\ (is_true_in r "isCjs"
          -> is_true_in r1 "isCjs" /\ is_true_in r2 "isCjs"))
  /\ (forall c1 c2,
         let deps1 := [ {| file := "a.cjs"; content := c1 |} ] in
         let deps2 := [ {| file := "b.cts"; content := c2 |} ] in
         is_true_in (index_cts.checkExtGroup deps1) "isCjs"
         /\ is_true_in (index_cts.checkExtGroup deps2) "isCjs"
         /\ is_false_in (index_cts.checkExtGroup (deps1 ++ deps2)) "isCjs").
Proof.
  split; [|intros c1 c2; repeat split].
  intros deps1 deps2 r r1 r2.
  destruct (checkExtGroup_lookup (deps1 ++ deps2))
    as (HNone & HJsx & HCjs & _ & HJs & HTs).
  destruct (checkExtGroup_lookup deps1)
    as (HNone1 & HJsx1 & HCjs1 & _ & HJs1 & HTs1).
  destruct (checkExtGroup_lookup deps2)
    as (HNone2 & HJsx2 & HCjs2 & _ & HJs2 & HTs2).
  rewrite suffixes_app, !every_app in *.
  fold r in HNone, HJsx, HCjs, HJs, HTs.
  fold r1 in HNone1, HJsx1, HCjs1, HJs1, HTs1.
  fold r2 in HNone2, HJsx2, HCjs2, HJs2, HTs2.
  rewrite (is_true_in_lookup _ _ _ HJs), (is_true_in_lookup _ _ _ HJs1),
          (is_true_in_lookup _ _ _ HJs2), (is_true_in_lookup _ _ _ HTs),
          (is_true_in_lookup _ _ _ HTs1), (is_true_in_lookup _ _ _ HTs2),
          (is_true_in_lookup _ _ _ HJsx), (is_true_in_lookup _ _ _ HJsx1),
          (is_true_in_lookup _ _ _ HJsx2), (is_true_in_lookup _ _ _ HNone),
          (is_true_in_lookup _ _ _ HNone1), (is_true_in_lookup _ _ _ HNone2),
          (is_true_in_lookup _ _ _ HCjs), (is_true_in_lookup _ _ _ HCjs1),
          (is_true_in_lookup _ _ _ HCjs2).
  rewrite !andb_true_iff, !negb_true_iff, andb_false_iff, !orb_true_iff,
          !andb_true_iff.
  tauto.
Qed.

(** X13: [checkJSX] is [true] exactly when every suffix of the batch is
    [.jsx] or [.tsx]; it is the [isJsx] flag of the lenient classifier;
    and a batch that is not empty and for which it is [true] passes the
    strict extension check. *)
Theorem checkJSX_is_the_isJsx_flag (deps : list DepsFile) :
  (index_ts.checkJSX deps = true
   <-> Forall (fun e => e ∈ [".jsx"; ".tsx"]) (suffixes deps))
  /\ index_cts.checkExtGroup deps !! "isJsx"
     = Some (JSBool (index_ts.checkJSX deps))
  /\ (deps <> [] -> index_ts.checkJSX deps = true ->
      forall tr, index_ts.checkExtGroup deps tr = (Returned true, tr)).
Proof.
  split; [apply every_has_Forall|]. split; [reflexivity|].
  intros Hne Hjsx tr.
  destruct (strict_ext_cases deps tr) as [[Hrun _]|[_ Hacc]]; [exact Hrun|].
  exfalso. apply Hacc.
  apply (every_has_Forall _ jsx_exts) in Hjsx.
  destruct deps as [|dep deps]; [contradiction|].
  change (suffixes (dep :: deps))
    with (path.extname (file dep) :: suffixes deps) in *.
  apply Forall_cons in Hjsx as [Hd Hjsx].
  assert (Hdep : path.extname (file dep) = ".jsx"
                 \/ path.extname (file dep) = ".tsx").
  { apply list_elem_of_In in Hd. destruct Hd as [<-|[<-|[]]]; auto. }
  split; [|split].
  - constructor.
    + destruct Hdep as [-> | ->]; apply list_elem_of_In; simpl; auto 10.
    + eapply Forall_impl; [exact Hjsx|]. intros e He.
      apply list_elem_of_In in He. destruct He as [<-|[<-|[]]];
        apply list_elem_of_In; simpl; auto 10.
  - intros Hall. apply Forall_cons in Hall as [Heq _].
    destruct Hdep as [Hd' | Hd']; rewrite Hd' in Heq; discriminate.
  - intros Hall. apply Forall_cons in Hall as [Heq _].
    destruct Hdep as [Hd' | Hd']; rewrite Hd' in Heq; discriminate.
Qed.

(** ** [fileExtensionAndFormat] *)

Section Sequence.
Context `{TypeScript}.

Lemma fileExtensionAndFormat_run (deps : list DepsFile) (tr : list event) :
  index_ts.fileExtensionAndFormat deps tr
  = match index_ts.checkExtGroup deps
            (tr ++ [console_time "checked extension and module"]) with
    | (Returned ce, tr1) =>
      match index_ts.checkModuleFormat deps tr1 with
      | (Returned cm, tr2) =>
        (Returned (ce && cm),
         tr2 ++ [console_timeEnd "checked extension and module"])
      | (Exited code, tr2) => (Exited code, tr2)
      | (Threw e, tr2) => (Threw e, tr2)
      end
    | (Exited code, tr1) => (Exited code, tr1)
    | (Threw e, tr1) => (Threw e, tr1)
    end.
Proof.
  unfold index_ts.fileExtensionAndFormat.
  rewrite (bind_returned _ _ _ _ _ (emit_run _ tr)).
  unfold mbind at 1, Proc_bind at 1.
  destruct (index_ts.checkExtGroup deps _) as [[ce|code|e] tr1];
    [|reflexivity|reflexivity].
  unfold mbind at 1, Proc_bind at 1.
  destruct (index_ts.checkModuleFormat deps tr1) as [[cm|code|e] tr2];
    reflexivity.
Qed.

(** X14: the ways [fileExtensionAndFormat] can end.  It returns [true],
    between its [console.time] and [console.timeEnd] events and with no
    other event, exactly when the batch passes the extension check and
    no file failed or ended with the CommonJS marker alone.  In every
    other case the process exits with code 1 and [console.timeEnd] is
    not reached: after [console.time] the trace has the warning of the
    extension check alone (that of [isNone] when some suffix is not
    recognized, else that of [isCjs]), or the reports of the failed
    files and the warning for them, or the CommonJS warning alone.  It
    never returns [false]. *)
Theorem fileExtensionAndFormat_passes_iff (deps : list DepsFile)
    (tr : list event) :
  (index_ts.fileExtensionAndFormat deps tr
   = (Returned true,
      tr ++ [console_time "checked extension and module";
             console_timeEnd "checked extension and module"])
   <-> accepted (suffixes deps)
       /\ Forall (fun dep => failed dep = false /\ counted_cjs dep = false)
            deps)
  /\ (~ Forall (fun e => e ∈ [".cjs"; ".js"; ".mjs"; ".cts"; ".ts"; ".mts";
                              ".jsx"; ".tsx"]) (suffixes deps) ->
      index_ts.fileExtensionAndFormat deps tr
      = (Exited 1,
         tr ++ [console_time "checked extension and module";
                console_warn index_ts.warn_isNone]))
  /\ (Forall (fun e => e ∈ [".cjs"; ".js"; ".mjs"; ".cts"; ".ts"; ".mts";
                            ".jsx"; ".tsx"]) (suffixes deps) ->
      Forall (fun e => e = ".cjs") (suffixes deps)
      \/ Forall (fun e => e = ".cts") (suffixes deps) ->
      index_ts.fileExtensionAndFormat deps tr
      = (Exited 1,
         tr ++ [console_time "checked extension and module";
                console_warn index_ts.warn_isCjs]))
  /\ (accepted (suffixes deps) ->
      ~ Forall (fun dep => failed dep = false) deps ->
      index_ts.fileExtensionAndFormat deps tr
      = (Exited 1,
         tr ++ [console_time "checked extension and module"]
            ++ report_all deps
            ++ [console_warn index_ts.warn_unknowCount]))
  /\ (accepted (suffixes deps) ->
      Forall (fun dep => failed dep = false) deps ->
      ~ Forall (fun dep => counted_cjs dep = false) deps ->
      index_ts.fileExtensionAndFormat deps tr
      = (Exited 1,
         tr ++ [console_time "checked extension and module";
                console_warn index_ts.warn_cjsCount]))
  /\ (index_ts.fileExtensionAndFormat deps tr
      = (Returned true,
         tr ++ [console_time "checked extension and module";
                console_timeEnd "checked extension and module"])
      \/ index_ts.fileExtensionAndFormat deps tr
         = (Exited 1,
            tr ++ [console_time "checked extension and module";
                   console_warn index_ts.warn_isNone])
      \/ index_ts.fileExtensionAndFormat deps tr
         = (Exited 1,
            tr ++ [console_time "checked extension and module";
                   console_warn index_ts.warn_isCjs])
      \/ index_ts.fileExtensionAndFormat deps tr
         = (Exited 1,
            tr ++ [console_time "checked extension and module"]
               ++ report_all deps
               ++ [console_warn index_ts.warn_unknowCount])
      \/ index_ts.fileExtensionAndFormat deps tr
         = (Exited 1,
            tr ++ [console_time "checked extension and module";
                   console_warn index_ts.warn_cjsCount])).
Proof.
  split; [|split; [|split; [|split; [|split]]]].
  - rewrite fileExtensionAndFormat_run.
    destruct (strict_ext_cases deps
                (tr ++ [console_time "checked extension and module"]))
      as [[Hext Hacc]|[[msg Hext] Hacc]]; rewrite Hext.
    2:{ split; [discriminate|intros [Ha _]; contradiction]. }
    destruct (strict_module_cases deps
                (tr ++ [console_time "checked extension and module"]))
      as [[Hmod Hok]|[[msg Hmod] Hok]]; rewrite Hmod.
    + rewrite <- app_assoc. cbn [andb app]. split; auto.
    + split; [discriminate|intros [_ Ho]; contradiction].
  - intros Hrec.
    rewrite fileExtensionAndFormat_run, strict_checkExtGroup_run. cbv zeta.
    destruct (every (suffixes deps) (fun i => has all_exts i)) eqn:Hall.
    + exfalso. apply Hrec, (every_has_Forall _ all_exts), Hall.
    + cbn [negb]. rewrite <- app_assoc. reflexivity.
  - intros Hrec Hcjs.
    rewrite fileExtensionAndFormat_run, strict_checkExtGroup_run. cbv zeta.
    apply (every_has_Forall _ all_exts) in Hrec. rewrite Hrec. cbn [negb].
    assert (Hb : every (suffixes deps) (fun i => has jscjs_exts i)
                 || every (suffixes deps) (fun i => has tscjs_exts i) = true).
    { apply orb_true_iff. unfold jscjs_exts, tscjs_exts.
      rewrite !every_has_one. exact Hcjs. }
    rewrite Hb, <- app_assoc. reflexivity.
  - intros Hacc Hfail.
    rewrite fileExtensionAndFormat_run.
    destruct (strict_ext_cases deps
                (tr ++ [console_time "checked extension and module"]))
      as [[Hext _]|[_ Hn]]; [rewrite Hext|contradiction].
    rewrite strict_run, tally_all_counts. cbv zeta.
    cbn [unknowCount cjsCount].
    destruct (Z.eqb_spec (how_many failed deps) 0) as [Hz|Hz].
    + exfalso. apply Hfail, how_many_zero, Hz.
    + cbn [negb]. rewrite <- !app_assoc. reflexivity.
  - intros Hacc Hok Hcjs.
    rewrite fileExtensionAndFormat_run.
    destruct (strict_ext_cases deps
                (tr ++ [console_time "checked extension and module"]))
      as [[Hext _]|[_ Hn]]; [rewrite Hext|contradiction].
    rewrite strict_run, tally_all_counts, (report_all_none _ Hok), app_nil_r.
    cbv zeta. cbn [unknowCount cjsCount].
    apply how_many_zero in Hok. rewrite Hok. cbn [Z.eqb negb].
    destruct (Z.eqb_spec (how_many counted_cjs deps) 0) as [Hz|Hz].
    + exfalso. apply Hcjs, how_many_zero, Hz.
    + cbn [negb]. rewrite <- app_assoc. reflexivity.
  - rewrite fileExtensionAndFormat_run, strict_checkExtGroup_run. cbv zeta.
    destruct (every (suffixes deps) (fun i => has all_exts i)); cbn [negb];
      [|right; left; rewrite <- app_assoc; reflexivity].
    destruct (every (suffixes deps) (fun i => has jscjs_exts i)
              || every (suffixes deps) (fun i => has tscjs_exts i)) eqn:Hcjs;
      [right; right; left; rewrite <- app_assoc; reflexivity|].
    destruct (every (suffixes deps) (fun i => has jsesm_exts i)
              && every (suffixes deps) (fun i => has tsesm_exts i)) eqn:Hboth.
    { apply isBoth_nil in Hboth. rewrite Hboth in Hcjs. discriminate. }
    rewrite strict_run, tally_all_counts. cbv zeta.
    cbn [unknowCount cjsCount].
    destruct (Z.eqb_spec (how_many failed deps) 0) as [Hu|Hu]; cbn [negb];
      [|right; right; right; left; rewrite <- !app_assoc; reflexivity].
    rewrite (report_all_none deps) by (apply how_many_zero, Hu).
    rewrite app_nil_r.
    destruct (Z.eqb_spec (how_many counted_cjs deps) 0) as [Hc|Hc]; cbn [negb].
    + left. rewrite <- app_assoc. reflexivity.
    + right; right; right; right. rewrite <- app_assoc. reflexivity.
Qed.

End Sequence.

(** X15: when the batch does not pass the extension check,
    [fileExtensionAndFormat] exits right after the warning of that
    check: no file is parsed and nothing is reported about the module
    format, whatever the parser would have done with the files. *)
Theorem extension_failure_preempts_analysis (deps : list DepsFile)
    (tr : list event) :
  ~ accepted (suffixes deps) ->
  exists msg, forall engine : TypeScript,
    @index_ts.fileExtensionAndFormat engine deps tr
    = (Exited 1,
       tr ++ [console_time "checked extension and module";
              console_warn msg]).
Proof.
  intros Hacc.
  destruct (strict_ext_cases deps
              (tr ++ [console_time "checked extension and module"]))
    as [[_ Ha]|[[msg Hext] _]]; [contradiction|].
  exists msg. intros engine.
  rewrite fileExtensionAndFormat_run, Hext, <- app_assoc. reflexivity.
Qed.

(** ** [checkTypes] *)

Lemma for_of_app {A S} (xs ys : list A) (body : A -> S -> Proc S) (s : S)
    (tr : list event) :
  for_of (xs ++ ys) body s tr
  = match for_of xs body s tr with
    | (Returned s', tr') => for_of ys body s' tr'
    | (Exited code, tr') => (Exited code, tr')
    | (Threw e, tr') => (Threw e, tr')
    end.
Proof.
  revert s tr. induction xs as [|x xs IH]; intros s tr; [reflexivity|].
  cbn [app for_of]. unfold mbind, Proc_bind.
  destruct (body x s tr) as [[s'|code|e] tr']; [apply IH| |]; reflexivity.
Qed.

Section TypeCheckingProperties.
Context `{TypeScript}.

Lemma checkTypes_run (deps : list DepsFile) (opts : CompilerOptions)
    (tr : list event) :
  checkTypes deps opts tr
  = if negb (default false (noCheck opts)) then
      match createProgram (map file deps) opts with
      | Throw e => (Threw e, tr ++ [console_time "types checked"])
      | Ok program =>
        match for_of (map file deps) (checkTypes_iteration program) false
                (tr ++ [console_time "types checked"]) with
        | (Returned true, tr') => (Exited 1, tr')
        | (Returned false, tr') =>
          (Returned (Some true), tr' ++ [console_timeEnd "types checked"])
        | (Exited code, tr') => (Exited code, tr')
        | (Threw e, tr') => (Threw e, tr')
        end
      end
    else (Returned None, tr).
Proof.
  unfold checkTypes.
  destruct (negb (default false (noCheck opts))); [|reflexivity].
  rewrite (bind_returned _ _ _ _ _ (emit_run _ tr)).
  destruct (createProgram (map file deps) opts) as [program|e];
    [|reflexivity].
  cbn [call]. erewrite bind_returned by reflexivity.
  change (for_of (map file deps) _ false)
    with (for_of (map file deps) (checkTypes_iteration program) false).
  unfold mbind at 1, Proc_bind at 1.
  destruct (for_of (map file deps) (checkTypes_iteration program) false _)
    as [[[|]|code|e] tr']; reflexivity.
Qed.

Lemma types_iteration_found (program : Program) (p : string)
    (_err : bool) (tr : list event) :
  found program p = true ->
  checkTypes_iteration program p _err tr
  = (Returned (_err || has_diagnostics program p),
     tr ++ diagnostics_report program p).
Proof.
  unfold found, checkTypes_iteration, has_diagnostics, diagnostics_report,
    diagnostics_of.
  destruct (getSourceFile program p) as [sf|]; [intros _|discriminate].
  cbv zeta.
  destruct (0 <? Z.of_nat
                   (length (getSyntacticDiagnostics program sf
                            ++ getSemanticDiagnostics program sf
                            ++ getDeclarationDiagnostics program sf))).
  - rewrite (bind_returned _ _ _ _ _ (emit_run _ tr)), orb_true_r.
    reflexivity.
  - rewrite orb_false_r, app_nil_r. reflexivity.
Qed.

(** The loop over paths that the program all has: it ends with [_err]
    set when it was set or some file has diagnostics, after one report
    for each file with diagnostics. *)
Lemma types_loop_found (program : Program) (paths : list string) :
  Forall (fun p => found program p = true) paths ->
  forall _err tr,
    for_of paths (checkTypes_iteration program) _err tr
    = (Returned (_err || existsb (has_diagnostics program) paths),
       tr ++ concat (map (diagnostics_report program) paths)).
Proof.
  induction 1 as [|p paths Hp _ IH]; intros _err tr.
  - cbn. rewrite orb_false_r, app_nil_r. reflexivity.
  - cbn [for_of existsb map concat].
    rewrite (bind_returned _ _ _ _ _ (types_iteration_found _ _ _ _ Hp)).
    rewrite IH, orb_assoc, app_assoc. reflexivity.
Qed.

Lemma types_loop_missing (program : Program) (p : string)
    (paths : list string) (_err : bool) (tr : list event) :
  found program p = false ->
  for_of (p :: paths) (checkTypes_iteration program) _err tr
  = (Exited 1,
     tr ++ [console_error ("File not found: " +:+ relative_to_cwd p)]).
Proof.
  intros Hp. cbn [for_of].
  apply bind_exited. unfold found in Hp. unfold checkTypes_iteration.
  destruct (getSourceFile program p); [discriminate|].
  rewrite (bind_returned _ _ _ _ _ (emit_run _ tr)). reflexivity.
Qed.

(** The loop returns or exits with code 1, and only adds to the trace;
    it does not throw. *)
Lemma types_loop_outcome (program : Program) (paths : list string) :
  forall _err tr, exists tr',
    (exists b,
        for_of paths (checkTypes_iteration program) _err tr
        = (Returned b, tr ++ tr'))
    \/ for_of paths (checkTypes_iteration program) _err tr
       = (Exited 1, tr ++ tr').
Proof.
  induction paths as [|p paths IH]; intros _err tr.
  - exists []. left. eexists. rewrite app_nil_r. reflexivity.
  - destruct (found program p) eqn:Hp.
    + cbn [for_of].
      rewrite (bind_returned _ _ _ _ _ (types_iteration_found _ _ _ _ Hp)).
      destruct (IH (_err || has_diagnostics program p)
                   (tr ++ diagnostics_report program p))
        as (tr' & [[b Hb]|Hb]); rewrite Hb, <- app_assoc;
        eexists; [left; eexists|right]; reflexivity.
    + eexists. right. apply types_loop_missing, Hp.
Qed.

(** X16: with type checking not switched off, a program that was
    created, has every file of the batch and no diagnostics for any of
    them, [checkTypes] returns [true]; its only events are the
    [console.time] and [console.timeEnd] of its timer. *)
Theorem checkTypes_clean_batch (deps : list DepsFile)
    (opts : CompilerOptions) (program : Program) (tr : list event) :
  noCheck opts <> Some true ->
  createProgram (map file deps) opts = Ok program ->
  Forall (fun dep => exists sourceFile,
              getSourceFile program (file dep) = Some sourceFile
              /\ getSyntacticDiagnostics program sourceFile = []
              /\ getSemanticDiagnostics program sourceFile = []
              /\ getDeclarationDiagnostics program sourceFile = []) deps ->
  checkTypes deps opts tr
  = (Returned (Some true),
     tr ++ [console_time "types checked"; console_timeEnd "types checked"]).
Proof.
  intros Hno Hprog Hclean.
  assert (Hfound : Forall (fun p => found program p = true) (map file deps)
                   /\ existsb (has_diagnostics program) (map file deps) = false
                   /\ concat (map (diagnostics_report program) (map file deps))
                      = []).
  { clear Hprog.
    induction Hclean
      as [|dep deps (sf & Hsf & H1 & H2 & H3) _ (IH1 & IH2 & IH3)];
      cbn [map existsb concat]; [repeat split; constructor|].
    rewrite IH2, IH3.
    unfold has_diagnostics, diagnostics_report, diagnostics_of.
    rewrite Hsf, H1, H2, H3.
    repeat split.
    constructor; [unfold found; rewrite Hsf; reflexivity|exact IH1]. }
  destruct Hfound as (Hf & Hd & Hr).
  rewrite checkTypes_run.
  assert (Hen : negb (default false (noCheck opts)) = true).
  { destruct (noCheck opts) as [[|]|]; [contradiction|reflexivity|reflexivity]. }
  rewrite Hen, Hprog, (types_loop_found _ _ Hf), Hd, Hr, app_nil_r.
  cbn [orb]. rewrite <- app_assoc. reflexivity.
Qed.

(** X17: when the program has every file of the batch and some file has
    diagnostics, [checkTypes] reports the diagnostics of every file that
    has some, in the order of the batch (the loop goes on after the first
    such file), and only then ends the process with code 1; the timer is
    not stopped. *)
Theorem checkTypes_reports_all_diagnostics (deps : list DepsFile)
    (opts : CompilerOptions) (program : Program) (tr : list event) :
  noCheck opts <> Some true ->
  createProgram (map file deps) opts = Ok program ->
  Forall (fun dep => found program (file dep) = true) deps ->
  Exists (fun dep => has_diagnostics program (file dep) = true) deps ->
  checkTypes deps opts tr
  = (Exited 1,
     tr ++ [console_time "types checked"]
        ++ concat (map (fun dep => diagnostics_report program (file dep))
                       deps)).
Proof.
  intros Hno Hprog Hfound Hdiag.
  rewrite checkTypes_run.
  assert (Hen : negb (default false (noCheck opts)) = true).
  { destruct (noCheck opts) as [[|]|]; [contradiction|reflexivity|reflexivity]. }
  rewrite Hen, Hprog, types_loop_found by (apply Forall_map; exact Hfound).
  assert (Hex : existsb (has_diagnostics program) (map file deps) = true).
  { apply existsb_exists. apply Exists_exists in Hdiag as (dep & Hin & Hd).
    exists (file dep). split; [|exact Hd].
    apply in_map, list_elem_of_In, Hin. }
  rewrite Hex, map_map, <- app_assoc. reflexivity.
Qed.

(** X18: at the first file of the batch that the program does not have,
    [checkTypes] prints "File not found" for it and ends the process
    with code 1 at once: the diagnostics of the files before it have
    been reported, the files after it are not looked at. *)
Theorem checkTypes_stops_at_missing_file (before after : list DepsFile)
    (missing : DepsFile) (opts : CompilerOptions) (program : Program)
    (tr : list event) :
  noCheck opts <> Some true ->
  createProgram (map file (before ++ missing :: after)) opts = Ok program ->
  Forall (fun dep => found program (file dep) = true) before ->
  getSourceFile program (file missing) = None ->
  checkTypes (before ++ missing :: after) opts tr
  = (Exited 1,
     tr ++ [console_time "types checked"]
        ++ concat (map (fun dep => diagnostics_report program (file dep))
                       before)
        ++ [console_error
              ("File not found: " +:+ relative_to_cwd (file missing))]).
Proof.
  intros Hno Hprog Hfound Hmiss.
  rewrite checkTypes_run.
  assert (Hen : negb (default false (noCheck opts)) = true).
  { destruct (noCheck opts) as [[|]|]; [contradiction|reflexivity|reflexivity]. }
  rewrite Hen, Hprog, map_app, for_of_app.
  rewrite types_loop_found by (apply Forall_map; exact Hfound).
  cbn [map]. rewrite types_loop_missing by (unfold found; rewrite Hmiss; reflexivity).
  rewrite map_map, <- !app_assoc. reflexivity.
Qed.

(** X19: the ways [checkTypes] can end.  With [noCheck: true] it returns
    [undefined] and does nothing.  Otherwise it starts its timer and
    then either throws what [ts.createProgram] threw, or ends the
    process with code 1, or returns [true] after stopping the timer.  It
    never returns [false], and it returns [undefined] in no other
    case. *)
Theorem checkTypes_outcomes (deps : list DepsFile) (opts : CompilerOptions)
    (tr : list event) :
  (noCheck opts = Some true /\ checkTypes deps opts tr = (Returned None, tr))
  \/ (noCheck opts <> Some true
      /\ ((exists e,
              createProgram (map file deps) opts = Throw e
              /\ checkTypes deps opts tr
                 = (Threw e, tr ++ [console_time "types checked"]))
          \/ (exists tr',
                 checkTypes deps opts tr
                 = (Exited 1, tr ++ [console_time "types checked"] ++ tr'))
          \/ (exists tr',
                 checkTypes deps opts tr
                 = (Returned (Some true),
                    tr ++ [console_time "types checked"] ++ tr'
                       ++ [console_timeEnd "types checked"])))).
Proof.
  rewrite checkTypes_run.
  destruct (noCheck opts) as [[|]|] eqn:Hno; cbn [default negb];
    [left; auto| |]; right; (split; [discriminate|]).
  all: destruct (createProgram (map file deps) opts) as [program|e];
    [|left; eexists; split; reflexivity].
  all: right.
  all: destruct (types_loop_outcome program (map file deps) false
                   (tr ++ [console_time "types checked"]))
      as (tr' & [[[|] Hb]|Hb]); rewrite Hb, <- ?app_assoc;
    [left|right|left]; eexists; reflexivity.
Qed.

End TypeCheckingProperties.

(** ** [check] *)

Lemma check_result_dom (b1 b2 b3 b4 b5 b6 : bool) (n1 n2 : Z) :
  dom (spread ({[ "isNone" := JSBool b1; "isJsx" := JSBool b2;
                  "isCjs" := JSBool b3; "isBoth" := JSBool b4;
                  "isJs" := JSBool b5; "isTs" := JSBool b6 ]} : JSObject)
              {[ "unknowCount" := JSNumber n1; "cjsCount" := JSNumber n2 ]})
  = ({[ "isNone"; "isJsx"; "isCjs"; "isBoth"; "isJs"; "isTs";
        "unknowCount"; "cjsCount" ]} : gset string).
Proof. vm_compute. reflexivity. Qed.

Lemma check_result_lookup (b1 b2 b3 b4 b5 b6 : bool) (n1 n2 : Z) :
  let ce : JSObject :=
    {[ "isNone" := JSBool b1; "isJsx" := JSBool b2;
       "isCjs" := JSBool b3; "isBoth" := JSBool b4;
       "isJs" := JSBool b5; "isTs" := JSBool b6 ]} in
  let r :=
    spread ce {[ "unknowCount" := JSNumber n1; "cjsCount" := JSNumber n2 ]} in
  r !! "unknowCount" = Some (JSNumber n1)
  /\ r !! "cjsCount" = Some (JSNumber n2)
  /\ r !! "isNone" = ce !! "isNone" /\ r !! "isJsx" = ce !! "isJsx"
  /\ r !! "isCjs" = ce !! "isCjs" /\ r !! "isBoth" = ce !! "isBoth"
  /\ r !! "isJs" = ce !! "isJs" /\ r !! "isTs" = ce !! "isTs".
Proof. repeat split. Qed.

Section Check.
Context `{TypeScript}.

Lemma classification_run (deps : list DepsFile) (tr : list event) :
  (cm ← index_cts.checkModuleFormat deps;
   ret (spread (index_cts.checkExtGroup deps) cm)) tr
  = (Returned (check_result deps (tally_all deps zeroCounts)),
     tr ++ report_all deps).
Proof.
  rewrite (bind_returned _ _ _ _ _ (lenient_run deps tr)). reflexivity.
Qed.

(** [check] after [checkTypes]: a return of [checkTypes] is followed by
    the classification, an exit is the exit of [check], a truthy thrown
    value is replaced by the error of [check], a falsy one is dropped
    and the classification follows. *)
Lemma check_run (deps : list DepsFile) (opts : CompilerOptions)
    (tr : list event) :
  index_cts.check deps opts tr
  = match checkTypes deps opts tr with
    | (Returned _, tr1) =>
      (Returned (check_result deps (tally_all deps zeroCounts)),
       tr1 ++ report_all deps)
    | (Exited code, tr1) => (Exited code, tr1)
    | (Threw e, tr1) =>
      if truthy e then (Threw type_checking_error, tr1)
      else (Returned (check_result deps (tally_all deps zeroCounts)),
            tr1 ++ report_all deps)
    end.
Proof.
  unfold index_cts.check. cbv zeta.
  unfold mbind at 1, Proc_bind at 1.
  unfold try_catch. unfold mbind at 1, Proc_bind at 1.
  destruct (checkTypes deps opts tr) as [[v|code|e] tr1].
  - apply classification_run.
  - reflexivity.
  - destruct (truthy e); [reflexivity|]. apply classification_run.
Qed.

(** X20: with [noCheck: true], [check] always returns: it never ends
    the process and never throws, whatever the batch (empty, of
    unrecognized suffixes, of files that fail to parse).  The object it
    returns has the six flags of [checkExtGroup], [unknowCount] (the
    number of failed files), [cjsCount] (the number of files with the
    CommonJS marker alone) and no other property; the only events are
    the reports of the failed files. *)
Theorem check_without_type_checking (deps : list DepsFile)
    (opts : CompilerOptions) (tr : list event) :
  noCheck opts = Some true ->
  exists r : JSObject,
    index_cts.check deps opts tr = (Returned r, tr ++ report_all deps)
    /\ dom r = {[ "isNone"; "isJsx"; "isCjs"; "isBoth"; "isJs"; "isTs";
                  "unknowCount"; "cjsCount" ]}
    /\ r !! "unknowCount" = Some (JSNumber (how_many failed deps))
    /\ r !! "cjsCount" = Some (JSNumber (how_many counted_cjs deps))
    /\ r !! "isNone" = index_cts.checkExtGroup deps !! "isNone"
    /\ r !! "isJsx" = index_cts.checkExtGroup deps !! "isJsx"
    /\ r !! "isCjs" = index_cts.checkExtGroup deps !! "isCjs"
    /\ r !! "isBoth" = index_cts.checkExtGroup deps !! "isBoth"
    /\ r !! "isJs" = index_cts.checkExtGroup deps !! "isJs"
    /\ r !! "isTs" = index_cts.checkExtGroup deps !! "isTs".
Proof.
  intros Hno.
  exists (check_result deps (tally_all deps zeroCounts)).
  split.
  - rewrite check_run, checkTypes_run, Hno. reflexivity.
  - rewrite tally_all_counts. cbn [unknowCount cjsCount].
    split; [apply check_result_dom|]. apply check_result_lookup.
Qed.

(** X21: when type checking is on and [ts.createProgram] throws, [check]
    throws its own error, "Error when type checking", in place of the
    value thrown, and classifies nothing, provided that value is truthy;
    a falsy thrown value is dropped, and [check] goes on to return the
    classification as if type checking had passed. *)
Theorem check_replaces_the_thrown_error (deps : list DepsFile)
    (opts : CompilerOptions) (e : Thrown) (tr : list event) :
  noCheck opts <> Some true ->
  createProgram (map file deps) opts = Throw e ->
  index_cts.check deps opts tr
  = if truthy e then
      (Threw {| truthy := true;
                toString := "Error: Error when type checking" |},
       tr ++ [console_time "types checked"])
    else
      (Returned (check_result deps (tally_all deps zeroCounts)),
       tr ++ [console_time "types checked"] ++ report_all deps).
Proof.
  intros Hno Hprog.
  assert (Hen : negb (default false (noCheck opts)) = true).
  { destruct (noCheck opts) as [[|]|]; [contradiction|reflexivity|reflexivity]. }
  rewrite check_run, checkTypes_run, Hen, Hprog.
  destruct (truthy e); [reflexivity|]. rewrite <- app_assoc. reflexivity.
Qed.

(** X22: an exit of [checkTypes] is not caught by the [try] of [check]:
    when [checkTypes] ends the process, [check] ends it with the same
    code and the same events, and classifies nothing; when [checkTypes]
    returns, [check] returns the classification, after the events of
    [checkTypes] and the reports of the failed files. *)
Theorem check_follows_checkTypes (deps : list DepsFile)
    (opts : CompilerOptions) (tr : list event) :
  (forall code tr',
      checkTypes deps opts tr = (Exited code, tr') ->
      index_cts.check deps opts tr = (Exited code, tr'))
  /\ (forall v tr',
         checkTypes deps opts tr = (Returned v, tr') ->
         index_cts.check deps opts tr
         = (Returned (check_result deps (tally_all deps zeroCounts)),
            tr' ++ report_all deps)).
Proof.
  split; intros x tr' Hct; rewrite check_run, Hct; reflexivity.
Qed.

End Check.

(** ** The further properties at sample batches *)

(** X4 at a batch of an ESM file, a file that fails to parse and a
    CommonJS file, and the same files in another order. *)
Lemma counters_ignore_file_order_witness :
  [Sample.esm_file; Sample.broken_file; Sample.cjs_file]
  ≡ₚ [Sample.cjs_file; Sample.esm_file; Sample.broken_file]
  /\ exists c tr1 tr2,
      @checkModuleFormat_loop Sample.engine
        [Sample.esm_file; Sample.broken_file; Sample.cjs_file] []
      = (Returned c, tr1)
      /\ @checkModuleFormat_loop Sample.engine
           [Sample.cjs_file; Sample.esm_file; Sample.broken_file] []
         = (Returned c, tr2)
      /\ c = {| _esmCount := 1; cjsCount := 1; unknowCount := 1 |}.
Proof.
  assert (Hperm : [Sample.esm_file; Sample.broken_file; Sample.cjs_file]
                  ≡ₚ [Sample.cjs_file; Sample.esm_file; Sample.broken_file]).
  { apply (Permutation_app_comm [Sample.esm_file; Sample.broken_file]
                                [Sample.cjs_file]). }
  split; [exact Hperm|].
  destruct (@counters_ignore_file_order Sample.engine _ _ [] Hperm)
    as (c & tr1 & tr2 & H1 & H2 & _).
  exists c, tr1, tr2. split; [exact H1|]. split; [exact H2|].
  vm_compute in H1. congruence.
Defined.

(** X7 at a batch of an ESM file and a file with both markers. *)
Lemma esm_batch_is_all_esm_witness :
  @checkModuleFormat_loop Sample.engine
    [Sample.esm_file; Sample.mixed_file] []
  = (Returned {| _esmCount := 2; cjsCount := 0; unknowCount := 0 |}, [])
  /\ @index_ts.checkModuleFormat Sample.engine
       [Sample.esm_file; Sample.mixed_file] []
     = (Returned true, []).
Proof.
  destruct (@esm_batch_is_all_esm Sample.engine
              [Sample.esm_file; Sample.mixed_file] [])
    as (Hloop & Hstrict & _).
  - repeat constructor.
    + exists Sample.export_const_a_tree. repeat split.
    + exists Sample.mixed_tree. repeat split.
  - split; [exact Hloop|exact Hstrict].
Defined.

(** X8 at a batch of a file that calls [require] and a file that
    assigns [module.exports]. *)
Lemma cjs_batch_is_all_cjs_witness :
  @checkModuleFormat_loop Sample.engine
    [Sample.cjs_file; Sample.exports_file] []
  = (Returned {| _esmCount := 0; cjsCount := 2; unknowCount := 0 |}, [])
  /\ @index_ts.checkModuleFormat Sample.engine
       [Sample.cjs_file; Sample.exports_file] []
     = (Exited 1, [console_warn index_ts.warn_cjsCount]).
Proof.
  destruct (@cjs_batch_is_all_cjs Sample.engine
              [Sample.cjs_file; Sample.exports_file] [])
    as (Hloop & Hstrict).
  - repeat constructor.
    + exists Sample.require_tree. repeat split.
    + exists Sample.module_exports_tree. repeat split.
  - split; [exact Hloop|]. apply Hstrict. discriminate.
Defined.

(** X10 at a [.cjs] file beside a [.ts] file. *)
Lemma strict_extension_check_accepts_mixed_witness :
  index_ts.checkExtGroup
    [ {| file := "a.cjs"; content := Sample.require_text |};
      {| file := "b.ts"; content := Sample.export_const_a_text |} ] []
  = (Returned true, []).
Proof.
  apply (strict_extension_check_accepts_mixed _ ".cjs" ".ts").
  - change (suffixes _) with [".cjs"; ".ts"]. repeat constructor.
  - change (suffixes _) with [".cjs"; ".ts"]. repeat constructor.
  - change (suffixes _) with [".cjs"; ".ts"]. repeat constructor.
  - discriminate.
Defined.

(** X11 at the batch of one [.ts] file. *)
Lemma homogeneity_flags_exclude_each_other_witness :
  [Sample.esm_file] <> []
  /\ index_cts.checkExtGroup [Sample.esm_file] !! "isTs"
     = Some (JSBool true)
  /\ index_cts.checkExtGroup [Sample.esm_file] !! "isBoth"
     = Some (JSBool false).
Proof.
  assert (Hne : [Sample.esm_file] <> []) by discriminate.
  destruct (homogeneity_flags_exclude_each_other [Sample.esm_file] Hne)
    as (bNone & bCjs & bJs & bTs & bJsx & _ & _ & _ & _ & _ & HBoth & _).
  split; [exact Hne|]. split; [reflexivity|exact HBoth].
Defined.

(** X13 at the batch of one [.tsx] file. *)
Lemma checkJSX_is_the_isJsx_flag_witness :
  index_ts.checkJSX
    [ {| file := "a.tsx"; content := Sample.export_const_a_text |} ] = true
  /\ index_ts.checkExtGroup
       [ {| file := "a.tsx"; content := Sample.export_const_a_text |} ] []
     = (Returned true, []).
Proof.
  destruct (checkJSX_is_the_isJsx_flag
              [ {| file := "a.tsx"; content := Sample.export_const_a_text |} ])
    as (_ & _ & Hpass).
  split; [reflexivity|]. apply Hpass; [discriminate|reflexivity].
Defined.

(** X15 at the batch of one [.txt] file. *)
Lemma extension_failure_preempts_analysis_witness :
  ~ accepted (suffixes [ {| file := "a.txt"; content := "import x" |} ])
  /\ exists msg, forall engine : TypeScript,
      @index_ts.fileExtensionAndFormat engine
        [ {| file := "a.txt"; content := "import x" |} ] []
      = (Exited 1,
         [console_time "checked extension and module"; console_warn msg]).
Proof.
  assert (Hacc : ~ accepted
                   (suffixes [ {| file := "a.txt"; content := "import x" |} ])).
  { intros (Hrec & _). change (suffixes _) with [".txt"] in Hrec.
    apply Forall_cons in Hrec as [Hin _].
    apply list_elem_of_In in Hin. simpl in Hin.
    repeat (destruct Hin as [Hin|Hin]; [discriminate|]). exact Hin. }
  split; [exact Hacc|].
  exact (extension_failure_preempts_analysis _ [] Hacc).
Defined.

(** X16 at a batch of one file the checker has nothing to say about. *)
Lemma checkTypes_clean_batch_witness :
  @checkTypes Checker.engine [Checker.good_file] Checker.checking []
  = (Returned (Some true),
     [console_time "types checked"; console_timeEnd "types checked"]).
Proof.
  apply (@checkTypes_clean_batch Checker.engine [Checker.good_file]
           Checker.checking ["x.ts"] []).
  - discriminate.
  - reflexivity.
  - repeat constructor. exists (Checker.sourceFile_of "x.ts"). repeat split.
Defined.

(** X17 at a batch with two files with a diagnostic around a clean one. *)
Lemma checkTypes_reports_all_diagnostics_witness :
  @checkTypes Checker.engine
    [Checker.wrong_file; Checker.good_file; Checker.wrong_file]
    Checker.checking []
  = (Exited 1,
     [console_time "types checked";
      console_error "wrong.ts: error TS2322";
      console_error "wrong.ts: error TS2322"]).
Proof.
  apply (@checkTypes_reports_all_diagnostics Checker.engine
           [Checker.wrong_file; Checker.good_file; Checker.wrong_file]
           Checker.checking ["wrong.ts"; "x.ts"; "wrong.ts"] []).
  - discriminate.
  - reflexivity.
  - repeat constructor.
  - apply Exists_cons_hd. reflexivity.
Defined.

(** X18 at a batch with a missing file between two others. *)
Lemma checkTypes_stops_at_missing_file_witness :
  @checkTypes Checker.engine
    [Checker.wrong_file; Checker.missing_file; Checker.wrong_file]
    Checker.checking []
  = (Exited 1,
     [console_time "types checked";
      console_error "wrong.ts: error TS2322";
      console_error "File not found: missing.ts"]).
Proof.
  apply (@checkTypes_stops_at_missing_file Checker.engine
           [Checker.wrong_file] [Checker.wrong_file] Checker.missing_file
           Checker.checking ["wrong.ts"; "missing.ts"; "wrong.ts"] []).
  - discriminate.
  - reflexivity.
  - repeat constructor.
  - reflexivity.
Defined.

(** X20 at a batch of a file that fails to parse and a CommonJS file. *)
Lemma check_without_type_checking_witness :
  exists r : JSObject,
    @index_cts.check Sample.engine [Sample.broken_file; Sample.cjs_file]
      {| noCheck := Some true |} []
    = (Returned r,
       [console_error
          ("Error checking module format for b.ts : " +:+ newline
           +:+ " Error: the parser gave up")])
    /\ r !! "unknowCount" = Some (JSNumber 1)
    /\ r !! "cjsCount" = Some (JSNumber 1).
Proof.
  destruct (@check_without_type_checking Sample.engine
              [Sample.broken_file; Sample.cjs_file]
              {| noCheck := Some true |} [] eq_refl)
    as (r & Hrun & _ & Hu & Hc & _).
  exists r. split; [exact Hrun|]. split; [exact Hu|exact Hc].
Defined.

(** X21 at a batch for which [createProgram] throws an error, and at one
    for which it throws [null]. *)
Lemma check_replaces_the_thrown_error_witness :
  @index_cts.check Checker.engine [Checker.crash_file] Checker.checking []
  = (Threw {| truthy := true;
              toString := "Error: Error when type checking" |},
     [console_time "types checked"])
  /\ exists r,
      @index_cts.check Checker.engine [Checker.null_file] Checker.checking []
      = (Returned r, [console_time "types checked"]).
Proof.
  split.
  - apply (@check_replaces_the_thrown_error Checker.engine
             [Checker.crash_file] Checker.checking Checker.crash []).
    + discriminate.
    + reflexivity.
  - eexists.
    apply (@check_replaces_the_thrown_error Checker.engine
             [Checker.null_file] Checker.checking Checker.thrown_null []).
    + discriminate.
    + reflexivity.
Defined.

(** X22 at a batch with a file the program does not have. *)
Lemma check_follows_checkTypes_witness :
  @index_cts.check Checker.engine [Checker.missing_file] Checker.checking []
  = (Exited 1,
     [console_time "types checked";
      console_error "File not found: missing.ts"]).
Proof.
  apply (proj1 (@check_follows_checkTypes Checker.engine
                  [Checker.missing_file] Checker.checking [])).
  reflexivity.
Defined.

(** X14 at a batch of one [.js] file that calls [require], and at a
    batch of a file that fails to parse beside an ESM file. *)
Lemma fileExtensionAndFormat_passes_iff_witness :
  @index_ts.fileExtensionAndFormat Sample.engine [Sample.cjs_file] []
  = (Exited 1,
     [console_time "checked extension and module";
      console_warn index_ts.warn_cjsCount])
  /\ @index_ts.fileExtensionAndFormat Sample.engine
       [Sample.broken_file; Sample.esm_file] []
     = (Exited 1,
        [console_time "checked extension and module";
         console_error
           ("Error checking module format for b.ts : " +:+ newline
            +:+ " Error: the parser gave up");
         console_warn index_ts.warn_unknowCount])
  /\ @index_ts.fileExtensionAndFormat Sample.engine [Sample.esm_file] []
     = (Returned true,
        [console_time "checked extension and module";
         console_timeEnd "checked extension and module"]).
Proof.
  assert (Hacc : forall dep deps,
             path.extname (file dep) = ".js"
             \/ path.extname (file dep) = ".ts" ->
             Forall (fun e => e ∈ [".cjs"; ".js"; ".mjs"; ".cts"; ".ts";
                                   ".mts"; ".jsx"; ".tsx"])
                    (suffixes (dep :: deps)) ->
             accepted (suffixes (dep :: deps))).
  { intros dep deps Hdep Hrec. split; [exact Hrec|].
    change (suffixes (dep :: deps))
      with (path.extname (file dep) :: suffixes deps).
    split; intros Hall; apply Forall_cons in Hall as [Heq _];
      destruct Hdep as [Hd|Hd]; rewrite Hd in Heq; discriminate. }
  split; [|split].
  - destruct (@fileExtensionAndFormat_passes_iff Sample.engine
                [Sample.cjs_file] []) as (_ & _ & _ & _ & Hcjs & _).
    apply Hcjs.
    + apply Hacc; [left; reflexivity|].
      change (suffixes _) with [".js"]. repeat constructor.
    + constructor; [vm_compute; reflexivity|constructor].
    + intros Hall. apply Forall_cons in Hall as [Heq _].
      vm_compute in Heq. discriminate.
  - destruct (@fileExtensionAndFormat_passes_iff Sample.engine
                [Sample.broken_file; Sample.esm_file] [])
      as (_ & _ & _ & Hfail & _).
    apply Hfail.
    + apply Hacc; [right; reflexivity|].
      change (suffixes _) with [".ts"; ".ts"]. repeat constructor.
    + intros Hall. apply Forall_cons in Hall as [Heq _].
      vm_compute in Heq. discriminate.
  - destruct (@fileExtensionAndFormat_passes_iff Sample.engine
                [Sample.esm_file] []) as (Hiff & _).
    apply Hiff. split.
    + apply Hacc; [right; reflexivity|].
      change (suffixes _) with [".ts"]. repeat constructor.
    + constructor; [split; vm_compute; reflexivity|constructor].
Defined.

(** ** A malformed file the parser recovers from *)

